(** * http_scraper.py: selector-driven extraction and browser escalation

    A shallow embedding of [src/server/scraper/http_scraper.py]
    ([HttpScraper.scrape], [HttpScraper._is_bot_blocked],
    [HttpScraper._extract_items], [serve], [main]) and the properties of
    its escalation policy.

    Conventions of the embedding.
    - A Python [str] is a [string]; one character is one code point below
      256, so [length] is Python's [len] and [lower] is [str.lower] on
      that range.  Code points from 256 up are outside the model.
    - A decoded JSON document is a [value]; JSON numbers are integers
      (literals with a fraction or an exponent are outside the model).
      A [dict] is an association list in insertion order.
    - The network, the HTML parser with its selector engine and the JSON
      decoder are collaborators of the program: they are the fields of an
      [Env], and every theorem holds for all of them.
    - Effects are recorded in a trace of [event]s, threaded through the
      monad [M] together with raised exceptions.  Reading a line of
      standard input and writing a line to standard output are taken to
      succeed. *)

From Stdlib Require Import ZArith List String Ascii Bool Lia DecimalString.
Import ListNotations.
Open Scope string_scope.
Open Scope Z_scope.

(* ================================================================== *)
(** ** Python strings *)

Module PyStr.

(** [str.lower] on one code point below 256: the ASCII capitals and the
    Latin-1 capitals (U+00C0..U+00DE without the multiplication sign). *)
Definition lower_char (c : ascii) : ascii :=
  let n := N_of_ascii c in
  if ((65 <=? n) && (n <=? 90))%N then ascii_of_N (n + 32)
  else if ((192 <=? n) && (n <=? 222) && negb (n =? 215))%N
       then ascii_of_N (n + 32)
  else c.

Fixpoint lower (s : string) : string :=
  match s with
  | EmptyString => EmptyString
  | String c s' => String (lower_char c) (lower s')
  end.

(** [needle in hay] on two strings. *)
Fixpoint contains (needle hay : string) : bool :=
  if String.prefix needle hay then true
  else match hay with
       | EmptyString => false
       | String _ hay' => contains needle hay'
       end.

(** [str.isspace] on one code point below 256. *)
Definition is_space (c : ascii) : bool :=
  let n := N_of_ascii c in
  (((9 <=? n) && (n <=? 13)) || ((28 <=? n) && (n <=? 32))
   || (n =? 133) || (n =? 160))%N.

Fixpoint lstrip (s : string) : string :=
  match s with
  | EmptyString => EmptyString
  | String c s' => if is_space c then lstrip s' else s
  end.

Fixpoint rstrip (s : string) : string :=
  match s with
  | EmptyString => EmptyString
  | String c s' =>
      match rstrip s' with
      | EmptyString => if is_space c then EmptyString else String c EmptyString
      | r => String c r
      end
  end.

(** [s.strip()] *)
Definition strip (s : string) : string := rstrip (lstrip s).

Definition is_empty (s : string) : bool :=
  match s with EmptyString => true | _ => false end.

(** [str(n)] for an integer. *)
Definition of_Z (z : Z) : string := NilZero.string_of_int (Z.to_int z).

(** [c * n]: a character repeated. *)
Fixpoint replicate (n : nat) (c : ascii) : string :=
  match n with
  | O => EmptyString
  | S n' => String c (replicate n' c)
  end.

End PyStr.

(* ================================================================== *)
(** ** Python values, as [json.loads] builds them *)

#[local] Set Warnings "-register-all".

Inductive value : Type :=
| VNone
| VBool (b : bool)
| VInt (z : Z)
| VStr (s : string)
| VList (l : list value)
| VDict (d : list (string * value)).

Definition dict : Type := list (string * value).

Module PyVal.

(** Truth value of an object (what [not x], [x or y] and [if x] test). *)
Definition truthy (v : value) : bool :=
  match v with
  | VNone => false
  | VBool b => b
  | VInt z => negb (z =? 0)
  | VStr s => negb (PyStr.is_empty s)
  | VList l => match l with [] => false | _ => true end
  | VDict d => match d with [] => false | _ => true end
  end.

(** [x or y] *)
Definition py_or (x y : value) : value := if truthy x then x else y.

(** [type(v).__name__] *)
Definition type_name (v : value) : string :=
  match v with
  | VNone => "NoneType"
  | VBool _ => "bool"
  | VInt _ => "int"
  | VStr _ => "str"
  | VList _ => "list"
  | VDict _ => "dict"
  end.

(** [v == s] for a string literal [s]: only an equal [str] is equal. *)
Definition eq_str (v : value) (s : string) : bool :=
  match v with
  | VStr s' => String.eqb s' s
  | _ => false
  end.

Fixpoint lookup (d : dict) (k : string) : option value :=
  match d with
  | [] => None
  | (k', v) :: d' => if String.eqb k' k then Some v else lookup d' k
  end.

(** [d.get(k, default)] on a dict. *)
Definition get (d : dict) (k : string) (default : value) : value :=
  match lookup d k with
  | Some v => v
  | None => default
  end.

(** [d[k] = v]: an existing key keeps its place, a new key goes last. *)
Fixpoint set (d : dict) (k : string) (v : value) : dict :=
  match d with
  | [] => [(k, v)]
  | (k', v') :: d' =>
      if String.eqb k' k then (k', v) :: d' else (k', v') :: set d' k v
  end.

Definition keys (d : dict) : list string := map fst d.
Definition values (d : dict) : list value := map snd d.

(** [any(v for v in vs if v)] *)
Definition any_truthy (vs : list value) : bool :=
  existsb truthy (filter truthy vs).

End PyVal.

(* ================================================================== *)
(** ** Exceptions, effects and the monad of the program *)

Inductive exn_class : Type :=
| Timeout            (* requests.Timeout *)
| RequestException   (* requests.RequestException, other than a timeout *)
| JSONDecodeError    (* json.JSONDecodeError *)
| KeyError
| TypeError
| AttributeError
| OtherException.    (* any other subclass of Exception *)

Record exn : Type := mkExn { exn_cls : exn_class; exn_str : string }.

(** [isinstance(e, c)] for the classes named in [except] clauses:
    [requests.Timeout] derives from [requests.RequestException]. *)
Definition isinstance (e : exn) (c : exn_class) : bool :=
  match c, exn_cls e with
  | Timeout, Timeout => true
  | RequestException, (Timeout | RequestException) => true
  | JSONDecodeError, JSONDecodeError => true
  | KeyError, KeyError => true
  | TypeError, TypeError => true
  | AttributeError, AttributeError => true
  | _, _ => false
  end.

Inductive pyres (A : Type) : Type :=
| Ok (a : A)
| Raise (e : exn).
Arguments Ok {A} a.
Arguments Raise {A} e.

(** What the program does to the outside, in the order it does it. *)
Inductive event : Type :=
| EvGet (url : value)        (* session.get(url, timeout=TIMEOUT, ...) *)
| EvParse (text : string)    (* BeautifulSoup(text, 'html.parser') *)
| EvSelect (sel : value)     (* soup.select(sel) *)
| EvSelectOne (sel : value)  (* container.select_one(sel) *)
| EvPrint (v : value).       (* print(json.dumps(v)) *)

Definition trace : Type := list event.

(** A computation reads the trace so far and returns a result or an
    exception, with the trace extended by what it did. *)
Definition M (A : Type) : Type := trace -> pyres A * trace.

Definition ret {A} (a : A) : M A := fun t => (Ok a, t).

Definition bind {A B} (m : M A) (k : A -> M B) : M B :=
  fun t => match m t with
           | (Ok a, t') => k a t'
           | (Raise e, t') => (Raise e, t')
           end.

Definition raise {A} (c : exn_class) (msg : string) : M A :=
  fun t => (Raise (mkExn c msg), t).

Definition emit (e : event) : M unit := fun t => (Ok tt, (t ++ [e])%list).

(** [try: body  except ...: handler e] *)
Definition try_except {A} (body : M A) (handler : exn -> M A) : M A :=
  fun t => match body t with
           | (Ok a, t') => (Ok a, t')
           | (Raise e, t') => handler e t'
           end.

Declare Scope py_scope.
Delimit Scope py_scope with py.
Notation "x <- m ;; k" := (bind m (fun x => k))
  (at level 61, m at next level, right associativity) : py_scope.
Notation "m ;;; k" := (bind m (fun _ => k))
  (at level 61, right associativity) : py_scope.
Open Scope py_scope.

(** [for x in xs: acc = body x acc] *)
Fixpoint for_each {A S} (xs : list A) (acc : S) (body : A -> S -> M S) : M S :=
  match xs with
  | [] => ret acc
  | x :: xs' => acc' <- body x acc ;; for_each xs' acc' body
  end.

(** [v.get(k, default)]: only a dict has the method. *)
Definition method_get (v : value) (k : string) (default : value) : M value :=
  match v with
  | VDict d => ret (PyVal.get d k default)
  | _ => raise AttributeError
           ("'" ++ PyVal.type_name v ++ "' object has no attribute 'get'")
  end.

(** [v[k]] for a string key [k]. *)
Definition subscript (v : value) (k : string) : M value :=
  match v with
  | VDict d =>
      match PyVal.lookup d k with
      | Some x => ret x
      | None => raise KeyError ("'" ++ k ++ "'")
      end
  | VList _ => raise TypeError "list indices must be integers or slices, not str"
  | VStr _ => raise TypeError "string indices must be integers, not 'str'"
  | _ => raise TypeError
           ("'" ++ PyVal.type_name v ++ "' object is not subscriptable")
  end.

(* ================================================================== *)
(** ** The collaborators: network, HTML parser, JSON decoder *)

(** [session_get h url] is [session.get(url, timeout=TIMEOUT,
    allow_redirects=True)] followed by [raise_for_status()], after the
    effects [h]: the text of the response, or the exception raised
    ([Timeout], [RequestException] for a connection failure or an HTTP
    error status, or anything else).  [html_parser] is
    [BeautifulSoup(text, 'html.parser')]; [soup_select] and
    [tag_select_one] are [select] and [select_one], which raise on a
    selector they cannot use.  [tag_get_text] is [get_text(strip=True)],
    [tag_attrs] the tag's attribute dict ([Tag.get] is [attrs.get]),
    [tag_str] is [str(tag)].  [json_loads] is [json.loads] on a string:
    the decoded value, or the message of its [JSONDecodeError]; its other
    failures ([ValueError] on an integer literal over the digit limit,
    [RecursionError] on deep nesting) are outside the model. *)
Record Env : Type := mkEnv {
  Soup : Type;
  Tag : Type;
  session_get : trace -> value -> pyres string;
  html_parser : string -> Soup;
  soup_select : Soup -> value -> pyres (list Tag);
  tag_select_one : Tag -> value -> pyres (option Tag);
  tag_get_text : Tag -> string;
  tag_attrs : Tag -> dict;
  tag_str : Tag -> string;
  json_loads : string -> string + value
}.

(* ================================================================== *)
(** ** The program *)

Definition TIMEOUT : Z := 10.

(** The result dict every branch builds, keys in the order of the source. *)
Definition result (success : bool) (items : list value) (count : Z)
           (needs_browser : bool) (reason : value) : value :=
  VDict [("success", VBool success); ("items", VList items);
         ("count", VInt count); ("needs_browser", VBool needs_browser);
         ("reason", reason)].

Definition bot_indicators : list string :=
  ["captcha"; "cloudflare"; "access denied"; "robot check";
   "please verify you are human"; "enable javascript"; "browser check";
   "ddos protection"].

(** The names a container selector may be given under. *)
Definition container_keys : list string :=
  ["productContainer"; "container"; "product_container"].

Section HttpScraper.

Context (E : Env).

(** The effectful calls, each leaving its event in the trace. *)
Definition get (url : value) : M string :=
  fun t => (session_get E t url, (t ++ [EvGet url])%list).

Definition BeautifulSoup (text : string) : M (Soup E) :=
  emit (EvParse text) ;;; ret (html_parser E text).

Definition select (soup : Soup E) (sel : value) : M (list (Tag E)) :=
  fun t => (soup_select E soup sel, (t ++ [EvSelect sel])%list).

Definition select_one (tag : Tag E) (sel : value) : M (option (Tag E)) :=
  fun t => (tag_select_one E tag sel, (t ++ [EvSelectOne sel])%list).

Definition print (v : value) : M unit := emit (EvPrint v).

Definition loads (s : string) : M value :=
  match json_loads E s with
  | inr v => ret v
  | inl msg => raise JSONDecodeError msg
  end.

(** [element.get(key, default)], that is [element.attrs.get(key,
    default)]: a list or a dict cannot be hashed, and no other key than
    a string is among the attributes. *)
Definition tag_get (el : Tag E) (key : value) (default : value) : M value :=
  match key with
  | VStr k => ret (PyVal.get (tag_attrs E el) k default)
  | VList _ | VDict _ =>
      raise TypeError ("unhashable type: '" ++ PyVal.type_name key ++ "'")
  | _ => ret default
  end.

(** [_is_bot_blocked], on the text of the response. *)
Definition _is_bot_blocked (text : string) : bool :=
  let text_lower := PyStr.lower text in
  if existsb (fun indicator => PyStr.contains indicator text_lower)
             bot_indicators
  then true
  else if (String.length text <? 500)%nat then true
  else false.

(** The container selector as [_extract_items] resolves it: the [or]
    chain over the three keys, then the [selector] of a dict. *)
Definition container_chain (selectors : dict) : value :=
  PyVal.py_or (PyVal.get selectors "productContainer" VNone)
    (PyVal.py_or (PyVal.get selectors "container" VNone)
                 (PyVal.get selectors "product_container" VNone)).

Definition unwrap_selector (container_sel : value) : value :=
  match container_sel with
  | VDict d => PyVal.get d "selector" (VStr "")
  | _ => container_sel
  end.

(** The value stored for one matched element, by attribute. *)
Definition extract_value (element : Tag E) (attr : value) : M value :=
  if PyVal.eq_str attr "text" || PyVal.eq_str attr "innerText"
  then ret (VStr (tag_get_text E element))
  else if PyVal.eq_str attr "href" then tag_get element (VStr "href") (VStr "")
  else if PyVal.eq_str attr "src" then tag_get element (VStr "src") (VStr "")
  else if PyVal.eq_str attr "innerHTML" then ret (VStr (tag_str E element))
  else tag_get element attr (VStr "").

(** One turn of [for field, selector in selectors.items()]. *)
Definition extract_field (container : Tag E)
           (fs : string * value) (item : dict) : M dict :=
  let '(field, selector) := fs in
  if existsb (String.eqb field) container_keys then ret item
  else
    match
      match selector with
      | VDict d => Some (PyVal.get d "selector" (VStr ""),
                         PyVal.get d "attribute" (VStr "text"))
      | VStr _ => Some (selector, VStr "text")
      | _ => None
      end
    with
    | None => ret item
    | Some (sel, attr) =>
        if negb (PyVal.truthy sel) then ret item
        else
          element <- select_one container sel ;;
          match element with
          | Some el =>
              v <- extract_value el attr ;;
              ret (PyVal.set item field v)
          | None => ret item
          end
    end.

(** [if item and any(v for v in item.values() if v)] *)
Definition keeps (item : dict) : bool :=
  PyVal.truthy (VDict item) && PyVal.any_truthy (PyVal.values item).

(** The candidate item of one container: [item = {}] and the loop over
    [selectors.items()]. *)
Definition build_item (selectors : dict) (container : Tag E) : M dict :=
  for_each selectors [] (extract_field container).

(** One turn of [for container in containers]. *)
Definition extract_container (selectors : dict)
           (container : Tag E) (items : list value) : M (list value) :=
  item <- build_item selectors container ;;
  if keeps item then ret (items ++ [VDict item])%list else ret items.

Definition _extract_items (soup : Soup E) (selectors : value)
  : M (list value) :=
  let items := [] in
  a <- method_get selectors "productContainer" VNone ;;
  container_sel <-
    (if PyVal.truthy a then ret a
     else b <- method_get selectors "container" VNone ;;
          if PyVal.truthy b then ret b
          else method_get selectors "product_container" VNone) ;;
  if negb (PyVal.truthy container_sel) then ret items
  else
    let container_sel := unwrap_selector container_sel in
    if negb (PyVal.truthy container_sel) then ret items
    else
      containers <- select soup container_sel ;;
      match selectors with
      | VDict d => for_each containers items (extract_container d)
      | _ => raise AttributeError
               ("'" ++ PyVal.type_name selectors
                    ++ "' object has no attribute 'items'")
      end.

(** [count < target_count] and the text of [target_count] in the
    f-string, for the values the comparison accepts. *)
Definition below_target (count : Z) (target_count : value)
  : M (option string) :=
  match target_count with
  | VInt t => ret (if count <? t then Some (PyStr.of_Z t) else None)
  | VBool b =>
      ret (if count <? (if b then 1 else 0)
           then Some (if b then "True" else "False") else None)
  | _ => raise TypeError
           ("'<' not supported between instances of 'int' and '"
              ++ PyVal.type_name target_count ++ "'")
  end.

(** The [try] block of [scrape]. *)
Definition scrape_body (url selectors target_count : value) : M value :=
  text <- get url ;;
  if _is_bot_blocked text
  then ret (result false [] 0 true (VStr "bot_detection"))
  else
    soup <- BeautifulSoup text ;;
    items <- _extract_items soup selectors ;;
    let count := Z.of_nat (List.length items) in
    if count =? 0
    then ret (result false [] 0 true (VStr "no_items_found"))
    else
      below <- below_target count target_count ;;
      match below with
      | Some target =>
          ret (result true items count true
                 (VStr ("below_target_" ++ PyStr.of_Z count
                                        ++ "/" ++ target)))
      | None => ret (result true items count false VNone)
      end.

(** Its [except] clauses, in the order of the source. *)
Definition scrape_except (e : exn) : M value :=
  if isinstance e Timeout
  then ret (result false [] 0 true (VStr "timeout"))
  else if isinstance e RequestException
  then ret (result false [] 0 true (VStr ("request_error: " ++ exn_str e)))
  else ret (result false [] 0 true (VStr ("parse_error: " ++ exn_str e))).

Definition scrape (url selectors target_count : value) : M value :=
  try_except (scrape_body url selectors target_count) scrape_except.

(** How one turn of the loop of [serve] ends. *)
Inductive flow : Type := Continue | Break.

(** The body of [for line in sys.stdin], on a stripped, non-empty line. *)
Definition serve_line (line : string) : M flow :=
  try_except
    (request <- loads line ;;
     command <- method_get request "command" VNone ;;
     if PyVal.eq_str command "shutdown" then ret Break
     else
       url <- method_get request "url" (VStr "") ;;
       selectors <- method_get request "selectors" (VDict []) ;;
       target_count <- method_get request "targetCount" (VInt 10) ;;
       res <- (if negb (PyVal.truthy url)
               then ret (result false [] 0 true (VStr "missing_url"))
               else scrape url selectors target_count) ;;
       print res ;;; ret Continue)
    (fun e =>
       if isinstance e JSONDecodeError
       then print (result false [] 0 true
                     (VStr ("json_decode_error: " ++ exn_str e))) ;;;
            ret Continue
       else print (result false [] 0 true
                     (VStr ("worker_error: " ++ exn_str e))) ;;;
            ret Continue).

Fixpoint serve (stdin : list string) : M unit :=
  match stdin with
  | [] => ret tt
  | line :: rest =>
      let line := PyStr.strip line in
      if negb (PyVal.truthy (VStr line)) then serve rest
      else
        f <- serve_line line ;;
        match f with
        | Break => ret tt
        | Continue => serve rest
        end
  end.

Definition usage : value :=
  VDict [("error",
          VStr "Usage: http_scraper.py <json_input> OR http_scraper.py --serve")].

(** [main] with [sys.argv] and the lines of [sys.stdin]; the value is
    the exit status of the process ([sys.exit(1)], or 0 on return). *)
Definition main (argv : list string) (stdin : list string) : M Z :=
  match argv with
  | _ :: arg :: _ =>
      if String.eqb arg "--serve" then serve stdin ;;; ret 0
      else
        try_except
          (input_data <- loads arg ;;
           url <- subscript input_data "url" ;;
           selectors <- subscript input_data "selectors" ;;
           target_count <- method_get input_data "targetCount" (VInt 10) ;;
           res <- scrape url selectors target_count ;;
           print res ;;; ret 0)
          (fun e =>
             if isinstance e JSONDecodeError
             then print (result false [] 0 true
                           (VStr ("json_decode_error: " ++ exn_str e))) ;;;
                  ret 1
             else if isinstance e KeyError
             then print (result false [] 0 true
                           (VStr ("missing_key: " ++ exn_str e))) ;;;
                  ret 1
             else print (result false [] 0 true
                           (VStr ("fatal_error: " ++ exn_str e))) ;;;
                  ret 1)
  | _ => print usage ;;; ret 1
  end.

End HttpScraper.

(* ================================================================== *)
(** ** A fixture: one small site, to run the program on *)

Module Fixture.

(** A document tree: tag name, attributes, own text, children. *)
Inductive node : Type :=
| Node (name : string) (attrs : dict) (text : string) (children : list node).

Definition name_of (n : node) : string := let 'Node x _ _ _ := n in x.
Definition attrs_of (n : node) : dict := let 'Node _ a _ _ := n in a.
Definition text_of (n : node) : string := let 'Node _ _ t _ := n in t.

Fixpoint descendants (n : node) : list node :=
  match n with
  | Node _ _ _ cs => flat_map (fun c => c :: descendants c) cs
  end.

(** The selectors of the fixture are tag names; anything else is refused. *)
Definition select_all (n : node) (sel : value) : pyres (list node) :=
  match sel with
  | VStr s => Ok (filter (fun c => String.eqb (name_of c) s) (descendants n))
  | _ => Raise (mkExn TypeError "expected a selector string")
  end.

Definition select_first (n : node) (sel : value) : pyres (option node) :=
  match select_all n sel with
  | Ok l => Ok (hd_error l)
  | Raise e => Raise e
  end.

Definition render (n : node) : string :=
  "<" ++ name_of n ++ ">" ++ text_of n ++ "</" ++ name_of n ++ ">".

(** A listing with two cards: the first has a link whose [href] is one
    blank and no text, the second a proper link. *)
Definition shop_url : string := "http://shop.test/tea".

Definition shop_text : string :=
  "<div><a href=' '></a></div><div><a href='/tea'>Tea</a></div>"
    ++ PyStr.replicate 500 " ".

Definition shop_doc : node :=
  Node "[document]" [] ""
    [Node "div" [] "" [Node "a" [("href", VStr " ")] "" []];
     Node "div" [] "" [Node "a" [("href", VStr "/tea")] "Tea" []]].

Definition slow_url : string := "http://slow.test/".

(** A challenge page, long enough not to be short. *)
Definition wall_url : string := "http://wall.test/".
Definition wall_text : string :=
  "Please complete the CAPTCHA" ++ PyStr.replicate 500 ".".

Definition fetch (_ : trace) (url : value) : pyres string :=
  match url with
  | VStr u =>
      if String.eqb u shop_url then Ok shop_text
      else if String.eqb u slow_url then Raise (mkExn Timeout "timed out")
      else if String.eqb u wall_url then Ok wall_text
      else Raise (mkExn RequestException "404 Client Error")
  | _ => Raise (mkExn RequestException "Invalid URL")
  end.

Definition parse (text : string) : node :=
  if String.eqb text shop_text then shop_doc
  else Node "[document]" [] text [].

(** Cards are the [div]s; the one field is the [href] of the link. *)
Definition card_selectors : dict :=
  [("container", VStr "div");
   ("link", VDict [("selector", VStr "a"); ("attribute", VStr "href")])].

(** The request lines the fixture's decoder knows. *)
Definition q : string := String "034"%char "".

Definition line_empty_url : string :=
  "{" ++ q ++ "url" ++ q ++ ": " ++ q ++ q ++ "}".
Definition line_shop : string :=
  "{" ++ q ++ "url" ++ q ++ ": " ++ q ++ shop_url ++ q ++ ", "
      ++ q ++ "selectors" ++ q ++ ": {}}".

Definition line_no_url : string :=
  "{" ++ q ++ "selectors" ++ q ++ ": {}}".

Definition decode (s : string) : string + value :=
  if String.eqb s line_empty_url then inr (VDict [("url", VStr "")])
  else if String.eqb s line_no_url then inr (VDict [("selectors", VDict [])])
  else if String.eqb s line_shop
  then inr (VDict [("url", VStr shop_url); ("selectors", VDict [])])
  else if String.eqb s "[]" then inr (VList [])
  else inl "Expecting value: line 1 column 1 (char 0)".

Definition env : Env :=
  {| Soup := node; Tag := node;
     session_get := fetch;
     html_parser := parse;
     soup_select := select_all;
     tag_select_one := select_first;
     tag_get_text := fun n => PyStr.strip (text_of n);
     tag_attrs := attrs_of;
     tag_str := render;
     json_loads := decode |}.

End Fixture.

(** The same site behind a decoder that also knows the shutdown command
    and a request that gives a url only. *)
Module Session.

Definition line_shutdown : string :=
  "{" ++ Fixture.q ++ "command" ++ Fixture.q ++ ": "
      ++ Fixture.q ++ "shutdown" ++ Fixture.q ++ "}".

Definition line_url_only : string :=
  "{" ++ Fixture.q ++ "url" ++ Fixture.q ++ ": "
      ++ Fixture.q ++ Fixture.shop_url ++ Fixture.q ++ "}".

Definition decode (s : string) : string + value :=
  if String.eqb s line_shutdown
  then inr (VDict [("command", VStr "shutdown")])
  else if String.eqb s line_url_only
  then inr (VDict [("url", VStr Fixture.shop_url)])
  else Fixture.decode s.

Definition env : Env :=
  {| Soup := Fixture.node; Tag := Fixture.node;
     session_get := Fixture.fetch;
     html_parser := Fixture.parse;
     soup_select := Fixture.select_all;
     tag_select_one := Fixture.select_first;
     tag_get_text := fun n => PyStr.strip (Fixture.text_of n);
     tag_attrs := Fixture.attrs_of;
     tag_str := Fixture.render;
     json_loads := decode |}.

End Session.

(* ================================================================== *)
(** ** Vocabulary of the properties *)

(** [needle] occurs in [hay]. *)
Definition occurs_in (needle hay : string) : Prop :=
  exists pre post, hay = pre ++ needle ++ post.

(** [r[k]] on a result, read back. *)
Definition field (r : value) (k : string) : value :=
  match r with
  | VDict d => PyVal.get d k VNone
  | _ => VNone
  end.

(** A result object: the five keys, and [count] the length of [items]. *)
Definition well_formed (r : value) : Prop :=
  exists d items,
    r = VDict d
    /\ PyVal.keys d = ["success"; "items"; "count"; "needs_browser"; "reason"]
    /\ PyVal.lookup d "items" = Some (VList items)
    /\ PyVal.lookup d "count" = Some (VInt (Z.of_nat (List.length items))).

(** The results [scrape] can return, one constructor per [return]. *)
Inductive scrape_result : value -> Prop :=
| res_bot_detection :
    scrape_result (result false [] 0 true (VStr "bot_detection"))
| res_no_items :
    scrape_result (result false [] 0 true (VStr "no_items_found"))
| res_below_target items target :
    items <> [] ->
    scrape_result
      (result true items (Z.of_nat (List.length items)) true
         (VStr ("below_target_" ++ PyStr.of_Z (Z.of_nat (List.length items))
                                ++ "/" ++ target)))
| res_full items :
    items <> [] ->
    scrape_result
      (result true items (Z.of_nat (List.length items)) false VNone)
| res_timeout :
    scrape_result (result false [] 0 true (VStr "timeout"))
| res_request_error detail :
    scrape_result (result false [] 0 true (VStr ("request_error: " ++ detail)))
| res_parse_error detail :
    scrape_result (result false [] 0 true (VStr ("parse_error: " ++ detail))).

(** A selector configuration whose container selector does not resolve:
    none of the three keys is there, or the value the [or] chain settles
    on is empty, or it is an object whose [selector] is empty. *)
Inductive unresolved (selectors : dict) : Prop :=
| no_alias :
    (forall k, In k container_keys -> PyVal.lookup selectors k = None) ->
    unresolved selectors
| empty_value :
    PyVal.truthy (container_chain selectors) = false ->
    unresolved selectors
| empty_selector o :
    container_chain selectors = VDict o ->
    PyVal.truthy (PyVal.get o "selector" (VStr "")) = false ->
    unresolved selectors.

(** The values printed along a trace, in order. *)
Definition printed (t : trace) : list value :=
  flat_map (fun e => match e with EvPrint v => [v] | _ => [] end) t.

(** An event that writes nothing to standard output. *)
Definition quiet (e : event) : bool :=
  match e with EvPrint _ => false | _ => true end.

(** [spec P m Q]: run from a trace satisfying [P], the computation [m]
    leaves a trace satisfying [P], and the value it returns, if it
    returns one, satisfies [Q]. *)
Definition spec {A} (P : trace -> Prop) (m : M A) (Q : A -> Prop) : Prop :=
  forall t, P t ->
            P (snd (m t)) /\ (forall a, fst (m t) = Ok a -> Q a).

(** An extracted item: a dict that passed the retention test, with an
    invariant [I] of the loop that built it. *)
Definition item_ok (I : dict -> Prop) (v : value) : Prop :=
  exists item, v = VDict item /\ I item /\ keeps item = true.

(** Every value printed so far is a result object. *)
Definition all_well_formed (t : trace) : Prop :=
  Forall well_formed (printed t).

(** The first of the three keys that is truthy in the configuration:
    the one the [or] chain of the source stops at. *)
Definition first_truthy_alias (selectors : dict) : option string :=
  find (fun k => PyVal.truthy (PyVal.get selectors k VNone)) container_keys.

(** The first of the three keys that is in the configuration at all,
    whatever its value: the specification's "first alias present". *)
Definition first_present_alias (selectors : dict) : option string :=
  find (fun k => match PyVal.lookup selectors k with
                 | Some _ => true
                 | None => false
                 end) container_keys.

(** [k] is a key of [v]: [v] is an object with an entry under [k]. *)
Definition has_key (v : value) (k : string) : bool :=
  match v with
  | VDict d => match PyVal.lookup d k with Some _ => true | None => false end
  | _ => false
  end.

(** The selector and the attribute a field entry stands for, as the
    loop of [_extract_items] reads it: an object, a bare string, or
    nothing for any other shape. *)
Definition field_spec (selector : value) : option (value * value) :=
  match selector with
  | VDict d => Some (PyVal.get d "selector" (VStr ""),
                     PyVal.get d "attribute" (VStr "text"))
  | VStr _ => Some (selector, VStr "text")
  | _ => None
  end.

(** An entry of the configuration the loop queries the document for: not
    one of the container keys, and with a non-empty selector. *)
Definition usable (fs : string * value) : bool :=
  negb (existsb (String.eqb (fst fs)) container_keys)
  && match field_spec (snd fs) with
     | Some (sel, _) => PyVal.truthy sel
     | None => false
     end.

(** An entry that matters to [_extract_items]: a container key or a
    usable field. *)
Definition relevant (fs : string * value) : bool :=
  existsb (String.eqb (fst fs)) container_keys || usable fs.

(** A query of the document. *)
Definition is_query (e : event) : bool :=
  match e with
  | EvSelect _ | EvSelectOne _ => true
  | _ => false
  end.

(** A stripped line that [serve] takes for the shutdown command. *)
Definition is_shutdown (E : Env) (line : string) : bool :=
  match json_loads E line with
  | inr (VDict d) => PyVal.eq_str (PyVal.get d "command" VNone) "shutdown"
  | _ => false
  end.

(** The requests [serve] answers: the stripped, non-empty lines up to the
    first shutdown command. *)
Fixpoint answered (E : Env) (stdin : list string) : list string :=
  match stdin with
  | [] => []
  | line :: rest =>
      let line := PyStr.strip line in
      if PyStr.is_empty line then answered E rest
      else if is_shutdown E line then []
      else line :: answered E rest
  end.

(* ================================================================== *)
(** ** Strings: what [contains] decides *)

Lemma prefix_true_iff (p s : string) :
  String.prefix p s = true <-> exists post, s = p ++ post.
Proof.
  revert s; induction p as [|c p IH]; intros s.
  - split; [intros _; now exists s | intros _; now destruct s].
  - destruct s as [|c' s']; simpl.
    + split; [discriminate | intros [post H]; discriminate].
    + destruct (Ascii.ascii_dec c c') as [->|Hne].
      * rewrite IH. split; intros [post H]; exists post.
        -- now rewrite H.
        -- now injection H.
      * split; [discriminate|].
        intros [post H]. injection H as Hc _. congruence.
Qed.

Lemma contains_true_iff (needle hay : string) :
  PyStr.contains needle hay = true <-> occurs_in needle hay.
Proof.
  unfold occurs_in.
  induction hay as [|c hay IH].
  - cbn [PyStr.contains]. destruct (String.prefix needle "") eqn:Hp.
    + apply prefix_true_iff in Hp as [post Hp].
      split; [intros _; now exists "", post | reflexivity].
    + split; [discriminate|].
      intros (pre & post & H).
      destruct pre; [|discriminate]. simpl in H.
      assert (String.prefix needle "" = true) by (apply prefix_true_iff; eauto).
      congruence.
  - cbn [PyStr.contains].
    destruct (String.prefix needle (String c hay)) eqn:Hp.
    + apply prefix_true_iff in Hp as [post Hp].
      split; [intros _; now exists "", post | reflexivity].
    + rewrite IH. split.
      * intros (pre & post & ->). now exists (String c pre), post.
      * intros (pre & post & H).
        destruct pre as [|c' pre].
        -- simpl in H.
           assert (String.prefix needle (String c hay) = true)
             by (apply prefix_true_iff; eauto).
           congruence.
        -- injection H as _ H. eauto.
Qed.

(* ================================================================== *)
(** ** The block detector *)

(** C5.  [_is_bot_blocked] answers [True] exactly when one of the eight
    indicators occurs in the lower-cased body or the body has fewer than
    500 characters; so a body of fewer than 500 characters is blocked
    whatever it contains. *)
Theorem is_bot_blocked_iff (text : string) :
  _is_bot_blocked text = true
  <-> (exists indicator,
          In indicator
             ["captcha"; "cloudflare"; "access denied"; "robot check";
              "please verify you are human"; "enable javascript";
              "browser check"; "ddos protection"]
          /\ occurs_in indicator (PyStr.lower text))
      \/ (String.length text < 500)%nat.
Proof.
  unfold _is_bot_blocked. fold bot_indicators.
  destruct (existsb _ bot_indicators) eqn:Hex.
  - split; [intros _; left | reflexivity].
    apply existsb_exists in Hex as (ind & Hin & Hc).
    exists ind. split; [exact Hin | now apply contains_true_iff].
  - destruct (String.length text <? 500)%nat eqn:Hlen.
    + split; [intros _; right; now apply Nat.ltb_lt | reflexivity].
    + split; [discriminate|].
      intros [(ind & Hin & Hocc) | Hlt].
      * assert (existsb (fun i => PyStr.contains i (PyStr.lower text))
                        bot_indicators = true) as Habs.
        { apply existsb_exists. exists ind. split; [exact Hin|].
          now apply contains_true_iff. }
        congruence.
      * apply Nat.ltb_lt in Hlt. congruence.
Qed.

(* ================================================================== *)
(** ** The classifier: [scrape] *)

Ltac run :=
  repeat progress
    (unfold scrape, scrape_body, get, BeautifulSoup, print, loads,
            try_except, bind, ret, raise, emit);
  cbn beta iota.

Lemma length_zero_nil {A} (l : list A) :
  (Z.of_nat (List.length l) =? 0) = true -> l = [].
Proof.
  intros H; apply Z.eqb_eq in H.
  destruct l; [reflexivity | cbn [List.length] in H; lia].
Qed.

Lemma length_nonzero_cons {A} (l : list A) :
  (Z.of_nat (List.length l) =? 0) = false -> l <> [].
Proof. intros H ->. discriminate. Qed.

Lemma scrape_body_result (E : Env) url selectors target_count t r t' :
  scrape_body E url selectors target_count t = (Ok r, t') -> scrape_result r.
Proof.
  run. destruct (session_get E t url) as [text|e]; [|discriminate].
  destruct (_is_bot_blocked text).
  - intros [= <- _]. constructor.
  - match goal with
    | |- context [_extract_items E ?s ?c ?u] =>
        destruct (_extract_items E s c u) as [[items|e] t1]; [|discriminate]
    end.
    destruct (Z.of_nat (List.length items) =? 0) eqn:Hc.
    + intros [= <- _]. constructor.
    + apply length_nonzero_cons in Hc.
      unfold below_target, ret, raise.
      destruct target_count as [|b|z|s|l|d]; try discriminate.
      * destruct (_ <? _); intros [= <- _]; now constructor.
      * destruct (_ <? _); intros [= <- _]; now constructor.
Qed.

Lemma scrape_except_result (E : Env) e t :
  exists r, scrape_except e t = (Ok r, t) /\ scrape_result r.
Proof.
  unfold scrape_except, ret.
  destruct (isinstance e Timeout); [|destruct (isinstance e RequestException)];
    eexists; (split; [reflexivity | constructor]).
Qed.

(** [scrape] returns, and what it returns is one of its seven results. *)
Lemma scrape_returns (E : Env) url selectors target_count t :
  exists r t', scrape E url selectors target_count t = (Ok r, t')
               /\ scrape_result r.
Proof.
  unfold scrape, try_except.
  destruct (scrape_body E url selectors target_count t) as [[r|e] t'] eqn:Hb.
  - exists r, t'. split; [reflexivity|]. eapply scrape_body_result; eauto.
  - destruct (scrape_except_result E e t') as (r & Hr & Hs). eauto.
Qed.

Lemma scrape_result_well_formed r : scrape_result r -> well_formed r.
Proof.
  intros H; destruct H; unfold well_formed, result;
    eexists; eexists; (split; [reflexivity|]); repeat split.
Qed.

(** C6.  When the fetch succeeds and the block detector fires on the
    body, [scrape] returns the [bot_detection] result, and the fetch is
    the only thing it did: the document is neither parsed nor queried. *)
Theorem scrape_blocked (E : Env) url selectors target_count t text :
  session_get E t url = Ok text ->
  _is_bot_blocked text = true ->
  scrape E url selectors target_count t
  = (Ok (VDict [("success", VBool false); ("items", VList []);
                ("count", VInt 0); ("needs_browser", VBool true);
                ("reason", VStr "bot_detection")]),
     (t ++ [EvGet url])%list).
Proof.
  intros Hget Hblocked. run. now rewrite Hget, Hblocked.
Qed.

Lemma scrape_blocked_witness :
  scrape Fixture.env (VStr Fixture.wall_url) (VDict Fixture.card_selectors)
         (VInt 10) []
  = (Ok (VDict [("success", VBool false); ("items", VList []);
                ("count", VInt 0); ("needs_browser", VBool true);
                ("reason", VStr "bot_detection")]),
     [EvGet (VStr Fixture.wall_url)]).
Proof.
  apply (scrape_blocked Fixture.env (VStr Fixture.wall_url)
           (VDict Fixture.card_selectors) (VInt 10) [] Fixture.wall_text);
    vm_compute; reflexivity.
Defined.

(** C7.  [scrape] always returns a result.  When the fetch raises, the
    result is a failure with no items that asks for the browser, and the
    fetch is all that was done: its reason is [timeout] for a timeout,
    [request_error: ] and the detail for any other transport error
    (connection failure, HTTP error status), [parse_error: ] and the
    detail for anything else.  The same holds when extraction raises
    after a fetch that passed, and for any exception of the [try] block.
    A result with items that asks for the browser is a [below_target]
    one. *)
Theorem scrape_never_raises (E : Env) url selectors target_count t :
  exists r t',
    scrape E url selectors target_count t = (Ok r, t')
    /\ (forall e,
          session_get E t url = Raise e ->
          t' = (t ++ [EvGet url])%list
          /\ r = VDict [("success", VBool false); ("items", VList []);
                        ("count", VInt 0); ("needs_browser", VBool true);
                        ("reason",
                         VStr (match exn_cls e with
                               | Timeout => "timeout"
                               | RequestException =>
                                   "request_error: " ++ exn_str e
                               | _ => "parse_error: " ++ exn_str e
                               end))])
    /\ (forall text e t2,
          session_get E t url = Ok text ->
          _is_bot_blocked text = false ->
          _extract_items E (html_parser E text) selectors
                         ((t ++ [EvGet url]) ++ [EvParse text])%list
          = (Raise e, t2) ->
          t' = t2
          /\ r = VDict [("success", VBool false); ("items", VList []);
                        ("count", VInt 0); ("needs_browser", VBool true);
                        ("reason",
                         VStr (match exn_cls e with
                               | Timeout => "timeout"
                               | RequestException =>
                                   "request_error: " ++ exn_str e
                               | _ => "parse_error: " ++ exn_str e
                               end))])
    /\ (forall e,
          scrape_body E url selectors target_count t = (Raise e, t') ->
          field r "success" = VBool false
          /\ field r "items" = VList []
          /\ field r "needs_browser" = VBool true
          /\ field r "reason"
             = VStr (match exn_cls e with
                     | Timeout => "timeout"
                     | RequestException => "request_error: " ++ exn_str e
                     | _ => "parse_error: " ++ exn_str e
                     end))
    /\ (forall items,
          field r "items" = VList items -> items <> [] ->
          field r "needs_browser" = VBool true ->
          field r "success" = VBool true
          /\ exists target,
              field r "reason"
              = VStr ("below_target_"
                        ++ PyStr.of_Z (Z.of_nat (List.length items))
                        ++ "/" ++ target)).
Proof.
  destruct (scrape_returns E url selectors target_count t) as (r & t' & Hr & Hs).
  exists r, t'. split; [exact Hr|].
  assert (forall e u,
             scrape_body E url selectors target_count t = (Raise e, u) ->
             u = t'
             /\ r = result false [] 0 true
                      (VStr (match exn_cls e with
                             | Timeout => "timeout"
                             | RequestException =>
                                 "request_error: " ++ exn_str e
                             | _ => "parse_error: " ++ exn_str e
                             end))) as Hraise.
  { intros e u He. revert Hr. unfold scrape, try_except. rewrite He.
    destruct e as [c msg]. unfold scrape_except, isinstance, ret.
    destruct c; cbn; intros [= <- <-]; split; reflexivity. }
  split; [|split; [|split]].
  - intros e Hget.
    destruct (Hraise e (t ++ [EvGet url])%list) as [<- ->];
      [|split; reflexivity].
    run. now rewrite Hget.
  - intros text e t2 Hget Hblocked Hextract.
    destruct (Hraise e t2) as [<- ->]; [|split; reflexivity].
    run. now rewrite Hget, Hblocked, Hextract.
  - intros e He. destruct (Hraise e t' He) as [_ ->]. repeat split.
  - intros items Hitems Hne Hnb.
    destruct Hs; cbn in Hitems, Hnb; try discriminate;
      injection Hitems as <-; try congruence.
    split; [reflexivity|]. now exists target.
Qed.

(** C1, as the code has it.  After a fetch that succeeded and was not
    blocked, with [count] items extracted and an integer [target_count]:
    if [count >= target_count] and [count > 0] the result does not ask
    for the browser; if [0 < count < target_count] it is a success that
    asks for the browser; and if [count = 0] it asks for the browser
    whatever [target_count] is. *)
Theorem scrape_count_against_target
        (E : Env) url selectors (target_count : Z) t text items t1 :
  session_get E t url = Ok text ->
  _is_bot_blocked text = false ->
  _extract_items E (html_parser E text) selectors
                 ((t ++ [EvGet url]) ++ [EvParse text])%list
  = (Ok items, t1) ->
  exists r,
    scrape E url selectors (VInt target_count) t = (Ok r, t1)
    /\ field r "count" = VInt (Z.of_nat (List.length items))
    /\ (Z.of_nat (List.length items) >= target_count ->
        0 < Z.of_nat (List.length items) ->
        field r "needs_browser" = VBool false)
    /\ (0 < Z.of_nat (List.length items) < target_count ->
        field r "success" = VBool true
        /\ field r "needs_browser" = VBool true)
    /\ (Z.of_nat (List.length items) = 0 ->
        field r "needs_browser" = VBool true).
Proof.
  intros Hget Hblocked Hextract. run.
  rewrite Hget, Hblocked, Hextract.
  destruct (Z.of_nat (List.length items) =? 0) eqn:Hzero.
  - apply Z.eqb_eq in Hzero. eexists. split; [reflexivity|].
    rewrite Hzero. cbn. repeat split; lia || reflexivity.
  - apply Z.eqb_neq in Hzero. unfold below_target, ret.
    destruct (Z.of_nat (List.length items) <? target_count) eqn:Hlt;
      [apply Z.ltb_lt in Hlt | apply Z.ltb_ge in Hlt];
      (eexists; split; [reflexivity|]); cbn;
      repeat split; intros; lia || reflexivity.
Qed.

Lemma scrape_count_against_target_witness :
  exists r,
    scrape Fixture.env (VStr Fixture.shop_url) (VDict Fixture.card_selectors)
           (VInt 5) []
    = (Ok r, [EvGet (VStr Fixture.shop_url); EvParse Fixture.shop_text;
              EvSelect (VStr "div"); EvSelectOne (VStr "a");
              EvSelectOne (VStr "a")])
    /\ field r "count" = VInt 2
    /\ field r "success" = VBool true
    /\ field r "needs_browser" = VBool true.
Proof.
  destruct (scrape_count_against_target Fixture.env (VStr Fixture.shop_url)
              (VDict Fixture.card_selectors) 5 [] Fixture.shop_text
              [VDict [("link", VStr " ")]; VDict [("link", VStr "/tea")]]
              [EvGet (VStr Fixture.shop_url); EvParse Fixture.shop_text;
               EvSelect (VStr "div"); EvSelectOne (VStr "a");
               EvSelectOne (VStr "a")])
    as (r & Hr & Hcount & _ & Hbelow & _);
    [vm_compute; reflexivity | vm_compute; reflexivity
     | vm_compute; reflexivity |].
  exists r. split; [exact Hr|]. split; [exact Hcount|].
  apply Hbelow. cbn. lia.
Defined.

(** C1 as stated fails at [count = 0], [target_count = 0]: the fetch
    succeeds and is not blocked, no item is extracted, [0 >= 0], and the
    result asks for the browser. *)
Lemma scrape_zero_target_counterexample :
  session_get Fixture.env [] (VStr Fixture.shop_url) = Ok Fixture.shop_text
  /\ _is_bot_blocked Fixture.shop_text = false
  /\ _extract_items Fixture.env (html_parser Fixture.env Fixture.shop_text)
                    (VDict [])
                    [EvGet (VStr Fixture.shop_url); EvParse Fixture.shop_text]
     = (Ok [], [EvGet (VStr Fixture.shop_url); EvParse Fixture.shop_text])
  /\ Z.of_nat (List.length (@nil value)) >= 0
  /\ exists r,
      fst (scrape Fixture.env (VStr Fixture.shop_url) (VDict []) (VInt 0) [])
      = Ok r
      /\ field r "needs_browser" = VBool true
      /\ field r "needs_browser" <> VBool false.
Proof.
  repeat split; try (vm_compute; reflexivity); try (cbn; lia).
  eexists. split; [vm_compute; reflexivity|].
  split; [reflexivity | discriminate].
Qed.

(* ================================================================== *)
(** ** The extractor: resolving the container *)

(** On a dict, [_extract_items] is its two guards on the resolved
    container selector, then the loop over the selected containers. *)
Lemma extract_items_dict (E : Env) (soup : Soup E) (d : dict) t :
  _extract_items E soup (VDict d) t
  = if negb (PyVal.truthy (container_chain d)) then (Ok [], t)
    else if negb (PyVal.truthy (unwrap_selector (container_chain d)))
         then (Ok [], t)
         else (containers <- select E soup (unwrap_selector (container_chain d)) ;;
               for_each containers [] (extract_container E d)) t.
Proof.
  unfold _extract_items, container_chain, PyVal.py_or, method_get, bind, ret.
  destruct (PyVal.truthy (PyVal.get d "productContainer" VNone)) eqn:Ha;
    [rewrite Ha
    | destruct (PyVal.truthy (PyVal.get d "container" VNone)) eqn:Hb;
      [rewrite Hb|]];
    cbn [negb];
    repeat match goal with
           | |- context [if ?c then _ else _] => destruct c
           end;
    reflexivity.
Qed.

Lemma unresolved_falsy (d : dict) :
  unresolved d ->
  PyVal.truthy (container_chain d) = false
  \/ PyVal.truthy (unwrap_selector (container_chain d)) = false.
Proof.
  intros [Hnone | Hempty | o Ho Hsel].
  - left. unfold container_chain, PyVal.py_or, PyVal.get.
    rewrite !Hnone by (unfold container_keys; simpl; tauto). reflexivity.
  - now left.
  - right. rewrite Ho. exact Hsel.
Qed.

(** C4.  When the container selector does not resolve, [_extract_items]
    returns the empty list, raising nothing and querying nothing; and a
    request whose fetch succeeded and was not blocked is answered with the
    [no_items_found] failure. *)
Theorem unresolved_container_no_items (E : Env) (d : dict) :
  unresolved d ->
  (forall soup t, _extract_items E soup (VDict d) t = (Ok [], t))
  /\ (forall url target_count t text,
        session_get E t url = Ok text ->
        _is_bot_blocked text = false ->
        scrape E url (VDict d) target_count t
        = (Ok (VDict [("success", VBool false); ("items", VList []);
                      ("count", VInt 0); ("needs_browser", VBool true);
                      ("reason", VStr "no_items_found")]),
           ((t ++ [EvGet url]) ++ [EvParse text])%list)).
Proof.
  intros Hun.
  assert (forall soup t, _extract_items E soup (VDict d) t = (Ok [], t)) as Hex.
  { intros soup t. rewrite extract_items_dict.
    destruct (unresolved_falsy d Hun) as [H | H].
    - now rewrite H.
    - rewrite H. now destruct (negb (PyVal.truthy (container_chain d))). }
  split; [exact Hex|].
  intros url target_count t text Hget Hblocked. run.
  rewrite Hget, Hblocked, Hex. reflexivity.
Qed.

Lemma unresolved_container_no_items_witness :
  _extract_items Fixture.env Fixture.shop_doc
                 (VDict [("container", VDict [("attribute", VStr "href")]);
                         ("name", VStr "a")]) []
  = (Ok [], [])
  /\ fst (scrape Fixture.env (VStr Fixture.shop_url)
                 (VDict [("container", VDict [("attribute", VStr "href")]);
                         ("name", VStr "a")]) (VInt 10) [])
     = Ok (result false [] 0 true (VStr "no_items_found")).
Proof.
  destruct (unresolved_container_no_items Fixture.env
              [("container", VDict [("attribute", VStr "href")]);
               ("name", VStr "a")]) as [Hex Hscrape].
  - apply (empty_selector _ [("attribute", VStr "href")]); reflexivity.
  - split; [apply Hex|].
    rewrite (Hscrape (VStr Fixture.shop_url) (VInt 10) [] Fixture.shop_text);
      vm_compute; reflexivity.
Defined.

(* ================================================================== *)
(** ** A small logic for trace invariants *)

Section TraceInvariant.

Context (P : trace -> Prop).

Lemma spec_ret {A} (a : A) (Q : A -> Prop) : Q a -> spec P (ret a) Q.
Proof. intros Hq t Ht. split; [exact Ht | now intros ? [= <-]]. Qed.

Lemma spec_raise {A} c msg (Q : A -> Prop) : spec P (raise c msg) Q.
Proof. intros t Ht. split; [exact Ht | discriminate]. Qed.

Lemma spec_bind {A B} (m : M A) (k : A -> M B) Q1 (Q2 : B -> Prop) :
  spec P m Q1 -> (forall a, Q1 a -> spec P (k a) Q2) ->
  spec P (bind m k) Q2.
Proof.
  intros Hm Hk t Ht. unfold bind.
  destruct (Hm t Ht) as [Hp Hq].
  destruct (m t) as [[a|e] t']; cbn [fst snd] in *.
  - apply Hk; auto.
  - split; [exact Hp | discriminate].
Qed.

Lemma spec_try {A} (body : M A) handler (Q : A -> Prop) :
  spec P body Q -> (forall e, spec P (handler e) Q) ->
  spec P (try_except body handler) Q.
Proof.
  intros Hb Hh t Ht. unfold try_except.
  destruct (Hb t Ht) as [Hp Hq].
  destruct (body t) as [[a|e] t']; cbn [fst snd] in *.
  - split; [exact Hp | intros ? [= <-]; auto].
  - apply Hh; auto.
Qed.

Lemma spec_weaken {A} (m : M A) (Q Q' : A -> Prop) :
  spec P m Q -> (forall a, Q a -> Q' a) -> spec P m Q'.
Proof. intros Hm Hq t Ht. destruct (Hm t Ht). split; auto. Qed.

Lemma spec_for_each {A S} (xs : list A) (body : A -> S -> M S)
      (I : S -> Prop) :
  (forall x acc, I acc -> spec P (body x acc) I) ->
  forall acc, I acc -> spec P (for_each xs acc body) I.
Proof.
  intros Hbody. induction xs as [|x xs IH]; intros acc Hacc; cbn [for_each].
  - now apply spec_ret.
  - eapply spec_bind; [apply Hbody; exact Hacc | intros; now apply IH].
Qed.

(** The calls of the collaborators leave quiet events only. *)
Hypothesis P_quiet : forall t e, quiet e = true -> P t -> P (t ++ [e])%list.

Variable E : Env.

Lemma spec_get url : spec P (get E url) (fun _ => True).
Proof. intros t Ht. split; [now apply P_quiet | trivial]. Qed.

Lemma spec_BeautifulSoup text : spec P (BeautifulSoup E text) (fun _ => True).
Proof. intros t Ht. split; [now apply P_quiet | trivial]. Qed.

Lemma spec_select soup sel : spec P (select E soup sel) (fun _ => True).
Proof. intros t Ht. split; [now apply P_quiet | trivial]. Qed.

Lemma spec_select_one tag sel : spec P (select_one E tag sel) (fun _ => True).
Proof. intros t Ht. split; [now apply P_quiet | trivial]. Qed.

Lemma spec_method_get v k default :
  spec P (method_get v k default) (fun _ => True).
Proof. destruct v; cbn; (apply spec_raise || now apply spec_ret). Qed.

Lemma spec_tag_get el key default :
  spec P (tag_get E el key default) (fun _ => True).
Proof. destruct key; cbn; (apply spec_raise || now apply spec_ret). Qed.

Lemma spec_extract_value el attr :
  spec P (extract_value E el attr) (fun _ => True).
Proof.
  unfold extract_value.
  repeat match goal with
         | |- context [if ?c then _ else _] => destruct c
         end;
    (apply spec_tag_get || now apply spec_ret).
Qed.

(** The loops of [_extract_items], for an invariant [I] of the item
    under construction that assignments to fields other than the
    container keys maintain. *)
Section Items.

Context (I : dict -> Prop).
Hypothesis I_empty : I [].
Hypothesis I_set :
  forall item field v,
    existsb (String.eqb field) container_keys = false ->
    I item -> I (PyVal.set item field v).

Lemma spec_extract_field container fs item :
  I item -> spec P (extract_field E container fs item) I.
Proof.
  intros Hi. destruct fs as [field selector]. unfold extract_field.
  destruct (existsb (String.eqb field) container_keys) eqn:Hk;
    [now apply spec_ret|].
  match goal with
  | |- context [match ?x with Some _ => _ | None => _ end] =>
      destruct x as [[sel attr]|]
  end; [|now apply spec_ret].
  destruct (negb (PyVal.truthy sel)); [now apply spec_ret|].
  eapply spec_bind; [apply spec_select_one|].
  intros [el|] _; [|now apply spec_ret].
  eapply spec_bind; [apply spec_extract_value|].
  intros v _. apply spec_ret. now apply I_set.
Qed.

Lemma spec_build_item d container : spec P (build_item E d container) I.
Proof.
  unfold build_item. apply spec_for_each; [|exact I_empty].
  intros. now apply spec_extract_field.
Qed.

Lemma spec_extract_container d container items :
  Forall (item_ok I) items ->
  spec P (extract_container E d container items) (Forall (item_ok I)).
Proof.
  intros Hitems. unfold extract_container.
  eapply spec_bind; [apply spec_build_item|].
  intros item Hi. destruct (keeps item) eqn:Hk; apply spec_ret; auto.
  apply Forall_app. split; [exact Hitems|].
  constructor; [|constructor]. now exists item.
Qed.

Lemma spec_extract_items soup selectors :
  spec P (_extract_items E soup selectors) (Forall (item_ok I)).
Proof.
  unfold _extract_items.
  eapply spec_bind; [apply spec_method_get|]. intros a _.
  eapply spec_bind with (Q1 := fun _ => True).
  { destruct (PyVal.truthy a); [now apply spec_ret|].
    eapply spec_bind; [apply spec_method_get|]. intros b _.
    destruct (PyVal.truthy b); [now apply spec_ret|].
    apply spec_method_get. }
  intros c _.
  destruct (negb (PyVal.truthy c)); [now apply spec_ret|].
  destruct (negb (PyVal.truthy (unwrap_selector c))); [now apply spec_ret|].
  eapply spec_bind; [apply spec_select|]. intros containers _.
  destruct selectors; try apply spec_raise.
  apply spec_for_each; [|constructor].
  intros. now apply spec_extract_container.
Qed.

End Items.

Lemma spec_below_target count target_count :
  spec P (below_target count target_count) (fun _ => True).
Proof.
  destruct target_count; cbn; (apply spec_raise || now apply spec_ret).
Qed.

Lemma spec_scrape url selectors target_count :
  spec P (scrape E url selectors target_count) scrape_result.
Proof.
  assert (spec P (scrape E url selectors target_count) (fun _ => True))
    as Hquiet.
  { unfold scrape. apply spec_try.
    + unfold scrape_body.
      eapply spec_bind; [apply spec_get|]. intros text _.
      destruct (_is_bot_blocked text); [now apply spec_ret|].
      eapply spec_bind; [apply spec_BeautifulSoup|]. intros soup _.
      eapply spec_bind;
        [apply (spec_extract_items (fun _ => True)); trivial|].
      intros items _.
      destruct (_ =? 0); [now apply spec_ret|].
      eapply spec_bind; [apply spec_below_target|].
      intros [target|] _; now apply spec_ret.
    + intros e. unfold scrape_except.
      destruct (isinstance e Timeout);
        [|destruct (isinstance e RequestException)]; now apply spec_ret. }
  intros t Ht. split; [now apply Hquiet|].
  - intros r Hr.
    destruct (scrape_returns E url selectors target_count t)
      as (r' & t' & Heq & Hres).
    rewrite Heq in Hr. injection Hr as <-. exact Hres.
Qed.

End TraceInvariant.

(* ================================================================== *)
(** ** The persistent loop prints result objects only *)

Lemma printed_app (t t' : trace) :
  printed (t ++ t')%list = (printed t ++ printed t')%list.
Proof. unfold printed. apply flat_map_app. Qed.

Lemma all_well_formed_quiet t e :
  quiet e = true -> all_well_formed t -> all_well_formed (t ++ [e])%list.
Proof.
  unfold all_well_formed. intros Hq Ht. rewrite printed_app.
  destruct e; try discriminate; cbn; now rewrite app_nil_r.
Qed.

Lemma spec_print v :
  well_formed v -> spec all_well_formed (print v) (fun _ => True).
Proof.
  intros Hv t Ht. split; [|trivial]. cbn.
  unfold all_well_formed. rewrite printed_app.
  apply Forall_app. split; [exact Ht | repeat constructor; exact Hv].
Qed.

Lemma failure_well_formed reason :
  well_formed (result false [] 0 true reason).
Proof.
  unfold well_formed, result. eexists; eexists.
  split; [reflexivity|]. repeat split.
Qed.

Lemma spec_loads (P : trace -> Prop) (E : Env) line :
  spec P (loads E line) (fun _ => True).
Proof.
  unfold loads. destruct (json_loads E line);
    [apply spec_raise | now apply spec_ret].
Qed.

Lemma spec_serve_line (E : Env) line :
  spec all_well_formed (serve_line E line) (fun _ => True).
Proof.
  unfold serve_line. apply spec_try.
  - eapply spec_bind; [apply spec_loads|]. intros request _.
    eapply spec_bind; [apply spec_method_get|]. intros command _.
    destruct (PyVal.eq_str command "shutdown"); [now apply spec_ret|].
    eapply spec_bind; [apply spec_method_get|]. intros url _.
    eapply spec_bind; [apply spec_method_get|]. intros selectors _.
    eapply spec_bind; [apply spec_method_get|]. intros target_count _.
    eapply spec_bind with (Q1 := well_formed).
    + destruct (negb (PyVal.truthy url)).
      * apply spec_ret, failure_well_formed.
      * eapply spec_weaken;
          [apply spec_scrape, all_well_formed_quiet
          | apply scrape_result_well_formed].
    + intros res Hres.
      eapply spec_bind; [now apply spec_print | intros; now apply spec_ret].
  - intros e.
    destruct (isinstance e JSONDecodeError);
      (eapply spec_bind;
       [apply spec_print, failure_well_formed | intros; now apply spec_ret]).
Qed.

Lemma spec_serve (E : Env) stdin :
  spec all_well_formed (serve E stdin) (fun _ => True).
Proof.
  induction stdin as [|line rest IH]; cbn [serve].
  - now apply spec_ret.
  - destruct (negb (PyVal.truthy (VStr (PyStr.strip line)))); [exact IH|].
    eapply spec_bind; [apply spec_serve_line|].
    intros [|] _; [exact IH | now apply spec_ret].
Qed.

(** C9.  Every result [scrape] returns, on any branch, and every value
    the persistent loop prints, on any branch, has exactly the keys
    [success], [items], [count], [needs_browser], [reason], in that
    order, and its [count] is the length of its [items]. *)
Theorem results_well_formed (E : Env) :
  (forall url selectors target_count t,
      exists r t',
        scrape E url selectors target_count t = (Ok r, t')
        /\ well_formed r)
  /\ (forall stdin,
         Forall well_formed (printed (snd (serve E stdin [])))).
Proof.
  split.
  - intros url selectors target_count t.
    destruct (scrape_returns E url selectors target_count t)
      as (r & t' & Hr & Hres).
    exists r, t'. split; [exact Hr | now apply scrape_result_well_formed].
  - intros stdin. apply (spec_serve E stdin []). constructor.
Qed.

(* ================================================================== *)
(** ** The extractor: which items are kept *)






(** On a document whose one card holds white space only, the fixture's
    [get_text(strip=True)] gives the empty string and no item is kept. *)
Example blank_text_item_discarded :
  fst (_extract_items Fixture.env
         (Fixture.Node "[document]" [] ""
            [Fixture.Node "div" [] "" [Fixture.Node "a" [] "   " []]])
         (VDict [("container", VStr "div"); ("name", VStr "a")]) [])
  = Ok [].
Proof. reflexivity. Qed.


(* ================================================================== *)
(** ** The extractor: which key gives the container *)

Lemma lookup_set (d : dict) (k : string) (v : value) (q : string) :
  PyVal.lookup (PyVal.set d k v) q
  = if String.eqb k q then Some v else PyVal.lookup d q.
Proof.
  induction d as [|[k' v'] d IH]; cbn [PyVal.set PyVal.lookup].
  - reflexivity.
  - destruct (String.eqb k' k) eqn:Hk; cbn [PyVal.lookup].
    + apply String.eqb_eq in Hk as ->.
      now destruct (String.eqb k q).
    + rewrite IH. destruct (String.eqb k' q) eqn:Hq; [|reflexivity].
      apply String.eqb_eq in Hq. subst q.
      now rewrite String.eqb_sym, Hk.
Qed.

Lemma set_keeps_container_keys_out (item : dict) (fld : string) (v : value) :
  existsb (String.eqb fld) container_keys = false ->
  (forall k, In k container_keys -> PyVal.lookup item k = None) ->
  forall k, In k container_keys -> PyVal.lookup (PyVal.set item fld v) k = None.
Proof.
  intros Hfld Hitem k Hk. rewrite lookup_set.
  destruct (String.eqb fld k) eqn:Heq; [|now apply Hitem].
  assert (existsb (String.eqb fld) container_keys = true) as Habs
      by (apply existsb_exists; eauto).
  congruence.
Qed.

(** C3, as the code has it.  On a configuration [d], the container
    selector comes from the first of [productContainer], [container],
    [product_container] whose value is truthy; a key whose value is
    empty or otherwise falsy is passed over, and with no truthy key
    nothing is extracted.  None of the three keys is ever a field of an
    extracted item, whichever gave the container. *)
Theorem container_from_first_truthy_alias
        (E : Env) (d : dict) (soup : Soup E) (t : trace) :
  match first_truthy_alias d with
  | Some k =>
      In k ["productContainer"; "container"; "product_container"]
      /\ PyVal.truthy (PyVal.get d k VNone) = true
      /\ _extract_items E soup (VDict d) t
         = if negb (PyVal.truthy (unwrap_selector (PyVal.get d k VNone)))
           then (Ok [], t)
           else (containers <-
                   select E soup (unwrap_selector (PyVal.get d k VNone)) ;;
                 for_each containers [] (extract_container E d)) t
  | None => _extract_items E soup (VDict d) t = (Ok [], t)
  end
  /\ (first_truthy_alias d
      = if PyVal.truthy (PyVal.get d "productContainer" VNone)
        then Some "productContainer"
        else if PyVal.truthy (PyVal.get d "container" VNone)
             then Some "container"
             else if PyVal.truthy (PyVal.get d "product_container" VNone)
                  then Some "product_container"
                  else None)
  /\ (forall items,
         fst (_extract_items E soup (VDict d) t) = Ok items ->
         Forall (fun v => exists item,
                     v = VDict item
                     /\ forall k,
                         In k ["productContainer"; "container";
                               "product_container"] ->
                         PyVal.lookup item k = None) items).
Proof.
  split; [|split].
  - rewrite extract_items_dict.
    unfold first_truthy_alias, container_chain, PyVal.py_or, container_keys.
    cbn [find].
    destruct (PyVal.truthy (PyVal.get d "productContainer" VNone)) eqn:Ha;
      [rewrite Ha; cbn; tauto|].
    destruct (PyVal.truthy (PyVal.get d "container" VNone)) eqn:Hb;
      [rewrite Hb; cbn; tauto|].
    destruct (PyVal.truthy (PyVal.get d "product_container" VNone)) eqn:Hc;
      [rewrite Hc; cbn; tauto|].
    reflexivity.
  - reflexivity.
  - intros items Hitems.
    pose (I := fun item : dict =>
                 forall k, In k container_keys -> PyVal.lookup item k = None).
    assert (Forall (item_ok I) items) as Hok.
    { apply (spec_extract_items (fun _ => True) (fun _ _ _ _ => Logic.I) E I
               (fun _ _ => eq_refl) set_keeps_container_keys_out
               soup (VDict d) t Logic.I).
      exact Hitems. }
    eapply Forall_impl; [|exact Hok].
    intros v (item & -> & Hi & _). now exists item.
Qed.

(** C3 as stated fails on the fixture: [productContainer] is the first
    key present and holds the empty string, yet the container selector
    is the value of [container], and the cards are extracted. *)
Lemma empty_first_alias_counterexample :
  first_present_alias
    [("productContainer", VStr ""); ("container", VStr "div");
     ("name", VStr "a")]
  = Some "productContainer"
  /\ PyVal.lookup
       [("productContainer", VStr ""); ("container", VStr "div");
        ("name", VStr "a")] "productContainer"
     = Some (VStr "")
  /\ container_chain
       [("productContainer", VStr ""); ("container", VStr "div");
        ("name", VStr "a")]
     = VStr "div"
  /\ _extract_items Fixture.env Fixture.shop_doc
       (VDict [("productContainer", VStr ""); ("container", VStr "div");
               ("name", VStr "a")]) []
     = (Ok [VDict [("name", VStr "Tea")]],
        [EvSelect (VStr "div"); EvSelectOne (VStr "a"); EvSelectOne (VStr "a")]).
Proof. repeat split. Qed.

(* ================================================================== *)
(** ** The persistent loop: a request without a usable url *)

Lemma serve_line_no_url (E : Env) (line : string) (d : dict) t :
  json_loads E line = inr (VDict d) ->
  PyVal.eq_str (PyVal.get d "command" VNone) "shutdown" = false ->
  PyVal.get d "url" (VStr "") = VStr "" ->
  serve_line E line t
  = (Ok Continue,
     (t ++ [EvPrint (result false [] 0 true (VStr "missing_url"))])%list).
Proof.
  intros Hloads Hcmd Hurl. unfold serve_line, method_get. run.
  rewrite Hloads, Hcmd, Hurl. reflexivity.
Qed.

Lemma nonblank_truthy (s : string) :
  s <> "" -> negb (PyVal.truthy (VStr s)) = false.
Proof. destruct s; [congruence | reflexivity]. Qed.

(** C10.  In the persistent loop, a request that is not the shutdown
    command and whose [url] is the empty string gets the [missing_url]
    failure printed and nothing else done (no fetch), and the loop goes
    on with the next line; a request with no [url] at all is treated the
    same way. *)
Theorem serve_empty_url_as_missing
        (E : Env) (line : string) (d : dict) (rest : list string) t :
  PyStr.strip line <> "" ->
  json_loads E (PyStr.strip line) = inr (VDict d) ->
  PyVal.eq_str (PyVal.get d "command" VNone) "shutdown" = false ->
  PyVal.lookup d "url" = Some (VStr "") ->
  serve E (line :: rest) t
  = serve E rest
          (t ++ [EvPrint (VDict [("success", VBool false); ("items", VList []);
                                 ("count", VInt 0);
                                 ("needs_browser", VBool true);
                                 ("reason", VStr "missing_url")])])%list
  /\ (forall line' d',
         PyStr.strip line' <> "" ->
         json_loads E (PyStr.strip line') = inr (VDict d') ->
         PyVal.eq_str (PyVal.get d' "command" VNone) "shutdown" = false ->
         PyVal.lookup d' "url" = None ->
         serve E (line' :: rest) t = serve E (line :: rest) t).
Proof.
  intros Hline Hloads Hcmd Hurl.
  assert (forall l x,
             PyStr.strip l <> "" ->
             json_loads E (PyStr.strip l) = inr (VDict x) ->
             PyVal.eq_str (PyVal.get x "command" VNone) "shutdown" = false ->
             PyVal.get x "url" (VStr "") = VStr "" ->
             serve E (l :: rest) t
             = serve E rest
                     (t ++ [EvPrint (result false [] 0 true
                                       (VStr "missing_url"))])%list) as Hstep.
  { intros l x Hl Hx Hc Hu. cbn [serve].
    rewrite (nonblank_truthy _ Hl). unfold bind at 1.
    now rewrite (serve_line_no_url E _ x t Hx Hc Hu). }
  split.
  - apply (Hstep line d); auto. unfold PyVal.get. now rewrite Hurl.
  - intros line' d' Hline' Hloads' Hcmd' Hurl'.
    rewrite (Hstep line d), (Hstep line' d'); auto;
      unfold PyVal.get; now rewrite ?Hurl, ?Hurl'.
Qed.

Lemma serve_empty_url_as_missing_witness :
  serve Fixture.env [Fixture.line_empty_url] []
  = (Ok tt, [EvPrint (result false [] 0 true (VStr "missing_url"))])
  /\ serve Fixture.env [Fixture.line_no_url] []
     = serve Fixture.env [Fixture.line_empty_url] [].
Proof.
  destruct (serve_empty_url_as_missing Fixture.env Fixture.line_empty_url
              [("url", VStr "")] [] []) as [Hstep Hsame];
    [vm_compute; discriminate | vm_compute; reflexivity
     | reflexivity | reflexivity |].
  split; [exact Hstep|].
  apply (Hsame Fixture.line_no_url [("selectors", VDict [])]);
    [vm_compute; discriminate | vm_compute; reflexivity
     | reflexivity | reflexivity].
Defined.

(* ================================================================== *)
(** ** Single-shot mode: the exit status *)

(** C8.  Given an argument other than [--serve], [main] terminates with
    status 0 or 1.  When the argument decodes to an object that has
    [url] and [selectors], it prints the result of [scrape], whatever
    it is, and the status is 0.  The status is 1 exactly when the
    argument does not decode or one of [url], [selectors] is not a key
    of the decoded value. *)
Theorem main_exit_status
        (E : Env) (prog arg : string) (rest stdin : list string) t :
  arg <> "--serve" ->
  exists code out,
    main E (prog :: arg :: rest) stdin t = (Ok code, out)
    /\ (code = 0 \/ code = 1)
    /\ (forall d url selectors,
           json_loads E arg = inr (VDict d) ->
           PyVal.lookup d "url" = Some url ->
           PyVal.lookup d "selectors" = Some selectors ->
           exists r t',
             scrape E url selectors (PyVal.get d "targetCount" (VInt 10)) t
             = (Ok r, t')
             /\ out = (t' ++ [EvPrint r])%list
             /\ code = 0)
    /\ (code <> 0
        <-> (exists msg, json_loads E arg = inl msg)
            \/ (exists v, json_loads E arg = inr v
                          /\ (has_key v "url" = false
                              \/ has_key v "selectors" = false))).
Proof.
  intros Harg. apply String.eqb_neq in Harg.
  unfold main. rewrite Harg. unfold subscript, method_get, loads, print.
  repeat progress unfold try_except, bind, ret, raise, emit.
  destruct (json_loads E arg) as [msg | v] eqn:Hloads.
  - (* json.JSONDecodeError *)
    cbn. eexists; eexists. split; [reflexivity|].
    split; [now right|]. split; [discriminate|].
    split; [intros _; left; eauto | intros _; discriminate].
  - destruct v as [|b|z|s|l|d];
      try (cbn; eexists; eexists; (split; [reflexivity|]);
           (split; [now right|]); (split; [discriminate|]);
           (split; [intros _; right; eexists; split; [reflexivity|];
                    now left
                   | intros _; discriminate])).
    destruct (PyVal.lookup d "url") as [url|] eqn:Hurl.
    + destruct (PyVal.lookup d "selectors") as [selectors|] eqn:Hsel.
      * destruct (scrape_returns E url selectors
                    (PyVal.get d "targetCount" (VInt 10)) t)
          as (r & t' & Hr & _).
        rewrite Hr. cbn. eexists; eexists. split; [reflexivity|].
        split; [now left|]. split.
        -- intros d' url' selectors' [= <-] Hu Hs.
           rewrite Hurl in Hu. rewrite Hsel in Hs.
           injection Hu as <-. injection Hs as <-.
           exists r, t'. repeat split. exact Hr.
        -- split; [congruence|].
           intros [[msg Hm] | (v & [= <-] & [Hk | Hk])];
             [discriminate | |]; cbn in Hk;
             rewrite ?Hurl, ?Hsel in Hk; discriminate.
      * cbn. eexists; eexists. split; [reflexivity|].
        split; [now right|]. split.
        -- intros d' url' selectors' [= <-] _ Hs. congruence.
        -- split; [|discriminate].
           intros _. right. eexists. split; [reflexivity|].
           right. cbn. now rewrite Hsel.
    + cbn. eexists; eexists. split; [reflexivity|].
      split; [now right|]. split.
      * intros d' url' selectors' [= <-] Hu _. congruence.
      * split; [|discriminate].
        intros _. right. eexists. split; [reflexivity|].
        left. cbn. now rewrite Hurl.
Qed.

Lemma main_exit_status_witness :
  exists out,
    main Fixture.env ["http_scraper.py"; Fixture.line_shop] [] [] = (Ok 0, out)
    /\ printed out = [result false [] 0 true (VStr "no_items_found")].
Proof.
  destruct (main_exit_status Fixture.env "http_scraper.py" Fixture.line_shop
              [] [] [])
    as (code & out & Hmain & _ & Hprint & _);
    [vm_compute; discriminate|].
  destruct (Hprint [("url", VStr Fixture.shop_url); ("selectors", VDict [])]
                   (VStr Fixture.shop_url) (VDict []))
    as (r & t' & Hscrape & Hout & Hcode);
    [vm_compute; reflexivity | reflexivity | reflexivity |].
  subst code. exists out. split; [exact Hmain|].
  rewrite Hout. vm_compute in Hscrape. injection Hscrape as <- <-.
  vm_compute. reflexivity.
Defined.


(* ================================================================== *)
(** ** More on the block detector *)

Lemma lower_app (a b : string) :
  PyStr.lower (a ++ b) = PyStr.lower a ++ PyStr.lower b.
Proof. induction a as [|c a IH]; cbn; congruence. Qed.

(** X1.  The verdict of the block detector does not depend on letter
    case: two bodies of the same length whose lower-cased texts are
    equal get the same verdict. *)
Theorem is_bot_blocked_case_insensitive (a b : string) :
  String.length a = String.length b ->
  PyStr.lower a = PyStr.lower b ->
  _is_bot_blocked a = _is_bot_blocked b.
Proof.
  intros Hlen Hlower. unfold _is_bot_blocked. now rewrite Hlower, Hlen.
Qed.

Lemma is_bot_blocked_case_insensitive_witness :
  _is_bot_blocked Fixture.wall_text
  = _is_bot_blocked (PyStr.lower Fixture.wall_text).
Proof.
  apply (is_bot_blocked_case_insensitive Fixture.wall_text
           (PyStr.lower Fixture.wall_text));
    vm_compute; reflexivity.
Defined.

(** X2.  A body in which an indicator occurs in any letter case, at any
    place, is blocked, however long the body is. *)
Theorem indicator_anywhere_blocks (indicator w pre post : string) :
  In indicator bot_indicators ->
  PyStr.lower w = indicator ->
  _is_bot_blocked (pre ++ w ++ post) = true.
Proof.
  intros Hin Hw. unfold _is_bot_blocked.
  assert (existsb
            (fun i => PyStr.contains i (PyStr.lower (pre ++ w ++ post)))
            bot_indicators = true) as ->; [|reflexivity].
  apply existsb_exists. exists indicator. split; [exact Hin|].
  apply contains_true_iff. exists (PyStr.lower pre), (PyStr.lower post).
  now rewrite !lower_app, Hw.
Qed.

Lemma indicator_anywhere_blocks_witness :
  _is_bot_blocked
    ("<p>Protected by " ++ "CloudFlare" ++ PyStr.replicate 600 "-")
  = true.
Proof.
  apply (indicator_anywhere_blocks "cloudflare" "CloudFlare");
    [vm_compute; tauto | reflexivity].
Defined.

(* ================================================================== *)
(** ** The extractor: what it asks of the document, and what it keeps *)

Lemma extract_field_usable_cases (E : Env) (c : Tag E) fld selector item t :
  usable (fld, selector) = false ->
  extract_field E c (fld, selector) item t = (Ok item, t).
Proof.
  unfold usable, extract_field, field_spec. cbn [fst snd].
  destruct (existsb (String.eqb fld) container_keys); [reflexivity|].
  cbn [negb andb].
  destruct selector as [| | | s | |o]; try reflexivity;
    intros ->; reflexivity.
Qed.

Section Queries.

Context (P : trace -> Prop).
Hypothesis P_select : forall t sel, P t -> P (t ++ [EvSelect sel])%list.
Hypothesis P_select_one : forall t sel, P t -> P (t ++ [EvSelectOne sel])%list.

Variable E : Env.
Context (d : dict) (I : dict -> Prop).
Hypothesis I_empty : I [].
Hypothesis I_set :
  forall fld selector item v,
    In (fld, selector) d -> usable (fld, selector) = true ->
    I item -> I (PyVal.set item fld v).

Lemma query_extract_field c fs item :
  In fs d -> I item -> spec P (extract_field E c fs item) I.
Proof.
  intros Hin Hi. destruct fs as [fld selector].
  destruct (usable (fld, selector)) eqn:Hu.
  - assert (forall v, I (PyVal.set item fld v)) as Hset
        by (intros; eapply I_set; eauto).
    unfold usable, field_spec in Hu. cbn [fst snd] in Hu.
    unfold extract_field.
    destruct (existsb (String.eqb fld) container_keys); [discriminate|].
    cbn [negb andb] in Hu.
    match goal with
    | |- context [match ?x with Some _ => _ | None => _ end] =>
        destruct x as [[sel attr]|]
    end; [|discriminate].
    rewrite Hu. cbn [negb].
    eapply spec_bind with (Q1 := fun _ => True).
    { intros t Ht. split; [now apply P_select_one | trivial]. }
    intros [el|] _; [|now apply spec_ret].
    eapply spec_bind with (Q1 := fun _ => True).
    { intros t Ht. split; [|trivial].
      unfold extract_value, tag_get.
      repeat match goal with
             | |- context [if ?b then _ else _] => destruct b
             | |- context [match ?k with VNone => _ | _ => _ end] => destruct k
             end; exact Ht. }
    intros v _. apply spec_ret. apply Hset.
  - intros t Ht. rewrite extract_field_usable_cases by exact Hu.
    split; [exact Ht | now intros ? [= <-]].
Qed.

Lemma query_fields c (fields : dict) :
  incl fields d ->
  forall item, I item -> spec P (for_each fields item (extract_field E c)) I.
Proof.
  induction fields as [|fs fields IH]; intros Hincl item Hi; cbn [for_each].
  - now apply spec_ret.
  - eapply spec_bind.
    + apply query_extract_field; [apply Hincl; now left | exact Hi].
    + intros item' Hi'. apply IH; [|exact Hi'].
      intros x Hx. apply Hincl. now right.
Qed.

Lemma query_build_item c : spec P (build_item E d c) I.
Proof. apply query_fields; [apply incl_refl | exact I_empty]. Qed.

Lemma query_extract_container c items :
  Forall (item_ok I) items ->
  spec P (extract_container E d c items) (Forall (item_ok I)).
Proof.
  intros Hitems. unfold extract_container.
  eapply spec_bind; [apply query_build_item|].
  intros item Hi. destruct (keeps item) eqn:Hk; apply spec_ret; auto.
  apply Forall_app. split; [exact Hitems|].
  constructor; [|constructor]. now exists item.
Qed.

Lemma query_extract_items soup :
  spec P (_extract_items E soup (VDict d)) (Forall (item_ok I)).
Proof.
  intros t Ht. rewrite extract_items_dict.
  destruct (negb (PyVal.truthy (container_chain d)));
    [split; [exact Ht | intros ? [= <-]; constructor]|].
  destruct (negb (PyVal.truthy (unwrap_selector (container_chain d))));
    [split; [exact Ht | intros ? [= <-]; constructor]|].
  revert t Ht.
  change (spec P (containers <-
                    select E soup (unwrap_selector (container_chain d)) ;;
                  for_each containers [] (extract_container E d))
               (Forall (item_ok I))).
  eapply spec_bind with (Q1 := fun _ => True).
  { intros t Ht. split; [now apply P_select | trivial]. }
  intros containers _. apply spec_for_each; [|constructor].
  intros. now apply query_extract_container.
Qed.

End Queries.

Lemma extract_items_trace (E : Env) (soup : Soup E) selectors t :
  exists qs,
    snd (_extract_items E soup selectors t) = (t ++ qs)%list
    /\ forallb is_query qs = true.
Proof.
  pose (P := fun t' : trace =>
               exists qs, t' = (t ++ qs)%list /\ forallb is_query qs = true).
  assert (forall u e, is_query e = true -> P u -> P (u ++ [e])%list) as Hstep.
  { intros u e He (qs & -> & Hqs). exists (qs ++ [e])%list.
    split; [now rewrite app_assoc|].
    rewrite forallb_app, Hqs. cbn. now rewrite He. }
  assert (P t) as Ht by (exists []; split; [now rewrite app_nil_r | reflexivity]).
  destruct selectors as [| | | | |d];
    try (exists []; split; [now rewrite app_nil_r | reflexivity]).
  apply (query_extract_items P (fun u s => Hstep u (EvSelect s) eq_refl)
           (fun u s => Hstep u (EvSelectOne s) eq_refl)
           E d (fun _ => True) I (fun _ _ _ _ _ _ _ => I) soup t Ht).
Qed.

(** X3.  A call of [scrape] fetches once, first, and prints nothing.  If
    the fetch raises or the body is blocked it does nothing more; else it
    parses the body once and then only queries the document. *)
Theorem scrape_effects (E : Env) url selectors target_count t :
  exists out,
    snd (scrape E url selectors target_count t) = (t ++ EvGet url :: out)%list
    /\ match session_get E t url with
       | Ok text =>
           if _is_bot_blocked text then out = []
           else exists qs, out = EvParse text :: qs
                           /\ forallb is_query qs = true
       | Raise _ => out = []
       end.
Proof.
  unfold scrape, try_except, scrape_body. unfold bind at 1. unfold get at 1.
  destruct (session_get E t url) as [text|e].
  - destruct (_is_bot_blocked text).
    + exists []. split; reflexivity.
    + unfold BeautifulSoup, emit, bind, ret.
      destruct (extract_items_trace E (html_parser E text) selectors
                  ((t ++ [EvGet url]) ++ [EvParse text])%list)
        as (qs & Hqs & Hall).
      exists (EvParse text :: qs). split; [|eauto].
      destruct (_extract_items E (html_parser E text) selectors _)
        as [[items|e] t2]; cbn [snd] in Hqs; subst t2.
      * assert (forall r : pyres value * trace,
                   snd r = (((t ++ [EvGet url]) ++ [EvParse text]) ++ qs)%list ->
                   snd (let (p, t') := r in
                        match p with
                        | Ok a => (Ok a, t')
                        | Raise e => scrape_except e t'
                        end)
                   = (t ++ EvGet url :: EvParse text :: qs)%list) as Hfin.
        { intros [[a|e] t'] Ht'; cbn [snd] in *; subst t'.
          - now rewrite <- !app_assoc.
          - destruct (scrape_except_result E e
                        (((t ++ [EvGet url]) ++ [EvParse text]) ++ qs)%list)
              as (r & -> & _).
            cbn [snd]. now rewrite <- !app_assoc. }
        apply Hfin.
        destruct (Z.of_nat (List.length items) =? 0); [reflexivity|].
        unfold below_target, ret, raise.
        destruct target_count as [|b|z| | |]; try reflexivity.
        -- now destruct (_ <? _).
        -- now destruct (_ <? _).
      * destruct (scrape_except_result E e
                    (((t ++ [EvGet url]) ++ [EvParse text]) ++ qs)%list)
          as (r & -> & _).
        cbn [snd]. now rewrite <- !app_assoc.
  - exists []. split; [|reflexivity].
    destruct (scrape_except_result E e (t ++ [EvGet url])%list) as (r & -> & _).
    reflexivity.
Qed.

Lemma containers_loop_length (E : Env) (d : dict) (cs : list (Tag E)) :
  forall acc t out t',
    for_each cs acc (extract_container E d) t = (Ok out, t') ->
    (List.length out <= List.length acc + List.length cs)%nat.
Proof.
  induction cs as [|c cs IH]; intros acc t out t'; cbn [for_each].
  - unfold ret. intros [= <- _]. cbn. lia.
  - unfold bind at 1. unfold extract_container at 1. unfold bind at 1.
    destruct (build_item E d c t) as [[item|e] t1]; [|discriminate].
    destruct (keeps item); unfold ret; intros H; apply IH in H;
      rewrite ?length_app in H; cbn [List.length] in *; lia.
Qed.

(** X4.  Extraction yields at most one item for each element the
    container selector matches. *)
Theorem at_most_one_item_per_container
        (E : Env) (d : dict) (soup : Soup E) t containers items t' :
  soup_select E soup (unwrap_selector (container_chain d)) = Ok containers ->
  _extract_items E soup (VDict d) t = (Ok items, t') ->
  (List.length items <= List.length containers)%nat.
Proof.
  intros Hsel. rewrite extract_items_dict.
  destruct (negb (PyVal.truthy (container_chain d)));
    [intros [= <- _]; cbn; lia|].
  destruct (negb (PyVal.truthy (unwrap_selector (container_chain d))));
    [intros [= <- _]; cbn; lia|].
  unfold bind, select. rewrite Hsel.
  intros H. apply containers_loop_length in H. cbn in H. lia.
Qed.

Lemma at_most_one_item_per_container_witness :
  (List.length [VDict [("name", VStr "Tea")]] <= 2)%nat.
Proof.
  apply (at_most_one_item_per_container Fixture.env
           [("container", VStr "div"); ("name", VStr "a")]
           Fixture.shop_doc []
           [Fixture.Node "div" []
              "" [Fixture.Node "a" [("href", VStr " ")] "" []];
            Fixture.Node "div" []
              "" [Fixture.Node "a" [("href", VStr "/tea")] "Tea" []]]
           [VDict [("name", VStr "Tea")]]
           [EvSelect (VStr "div"); EvSelectOne (VStr "a");
            EvSelectOne (VStr "a")]); reflexivity.
Defined.

Lemma keys_set (item : dict) (fld : string) (v : value) (k : string) :
  In k (PyVal.keys (PyVal.set item fld v)) ->
  k = fld \/ In k (PyVal.keys item).
Proof.
  induction item as [|[k' v'] item IH]; cbn [PyVal.set].
  - cbn. intros [<- | []]. now left.
  - destruct (String.eqb k' fld) eqn:Hk; cbn.
    + tauto.
    + intros [<- | H]; [tauto | destruct (IH H); tauto].
Qed.

(** X5.  Every field of an extracted item is a key of the configuration
    that is none of the three container keys and whose entry has a
    non-empty selector. *)
Theorem item_fields_from_configuration
        (E : Env) (d : dict) (soup : Soup E) t items :
  fst (_extract_items E soup (VDict d) t) = Ok items ->
  Forall (fun v =>
            exists item,
              v = VDict item
              /\ forall k, In k (PyVal.keys item) ->
                           existsb (String.eqb k) container_keys = false
                           /\ exists selector sel attr,
                               In (k, selector) d
                               /\ field_spec selector = Some (sel, attr)
                               /\ PyVal.truthy sel = true) items.
Proof.
  intros Hitems.
  pose (I := fun item : dict =>
               forall k, In k (PyVal.keys item) ->
                         exists selector,
                           In (k, selector) d /\ usable (k, selector) = true).
  assert (Forall (item_ok I) items) as Hok.
  { apply (query_extract_items (fun _ => True) (fun _ _ _ => Logic.I)
             (fun _ _ _ => Logic.I) E d I) with (soup := soup) (t := t);
      [ intros k [] | | exact Logic.I | exact Hitems ].
    intros fld selector item v Hin Hu Hi k Hk.
    apply keys_set in Hk as [-> | Hk]; [eauto | now apply Hi]. }
  eapply Forall_impl; [|exact Hok].
  intros v (item & -> & Hi & _). exists item. split; [reflexivity|].
  intros k Hk. destruct (Hi k Hk) as (selector & Hin & Hu).
  unfold usable in Hu. cbn [fst snd] in Hu.
  apply andb_true_iff in Hu as [Hc Hs].
  split; [now apply negb_true_iff|].
  destruct (field_spec selector) as [[sel attr]|] eqn:Hf; [|discriminate].
  now exists selector, sel, attr.
Qed.

Lemma item_fields_from_configuration_witness :
  Forall (fun v =>
            exists item,
              v = VDict item
              /\ forall k, In k (PyVal.keys item) ->
                           existsb (String.eqb k) container_keys = false
                           /\ exists selector sel attr,
                               In (k, selector) Fixture.card_selectors
                               /\ field_spec selector = Some (sel, attr)
                               /\ PyVal.truthy sel = true)
         [VDict [("link", VStr " ")]; VDict [("link", VStr "/tea")]].
Proof.
  apply (item_fields_from_configuration Fixture.env Fixture.card_selectors
           Fixture.shop_doc []).
  reflexivity.
Defined.

Lemma fields_loop_filter (E : Env) (c : Tag E) (f : string * value -> bool) :
  (forall fs, usable fs = true -> f fs = true) ->
  forall (fields : dict) item t,
    for_each fields item (extract_field E c) t
    = for_each (filter f fields) item (extract_field E c) t.
Proof.
  intros Hf. induction fields as [|[fld selector] fields IH]; intros item t.
  - reflexivity.
  - cbn [filter]. destruct (f (fld, selector)) eqn:Hkeep; cbn [for_each].
    + unfold bind.
      destruct (extract_field E c (fld, selector) item t) as [[item'|e] t1];
        [apply IH | reflexivity].
    + assert (usable (fld, selector) = false) as Hu.
      { destruct (usable (fld, selector)) eqn:Hu; [|reflexivity].
        apply Hf in Hu. congruence. }
      unfold bind. rewrite extract_field_usable_cases by exact Hu. apply IH.
Qed.

Lemma lookup_filter (f : string * value -> bool) (k : string) (d : dict) :
  (forall v, f (k, v) = true) ->
  PyVal.lookup (filter f d) k = PyVal.lookup d k.
Proof.
  intros Hf. induction d as [|[k' v'] d IH]; [reflexivity|].
  cbn [filter PyVal.lookup].
  destruct (String.eqb k' k) eqn:Hk.
  - apply String.eqb_eq in Hk as ->. rewrite Hf. cbn [PyVal.lookup].
    now rewrite String.eqb_refl.
  - destruct (f (k', v')); cbn [PyVal.lookup]; now rewrite ?Hk.
Qed.

Lemma container_chain_relevant (d : dict) :
  container_chain (filter relevant d) = container_chain d.
Proof.
  unfold container_chain, PyVal.get.
  now rewrite !lookup_filter by (intros; reflexivity).
Qed.

Lemma for_each_ext {A S} (body1 body2 : A -> S -> M S) :
  (forall x acc t, body1 x acc t = body2 x acc t) ->
  forall xs acc t, for_each xs acc body1 t = for_each xs acc body2 t.
Proof.
  intros Hext. induction xs as [|x xs IH]; intros acc t; [reflexivity|].
  cbn [for_each]. unfold bind. rewrite Hext.
  destruct (body2 x acc t) as [[acc'|e] t1]; [apply IH | reflexivity].
Qed.

(** X6.  Entries of the configuration that are neither a container key
    nor a field with a non-empty selector (a number, a list, [null], an
    object without [selector], an empty string) change nothing: with
    them removed, extraction returns the same items and asks the same
    queries. *)
Theorem extract_items_ignores_unusable_entries
        (E : Env) (d : dict) (soup : Soup E) t :
  _extract_items E soup (VDict d) t
  = _extract_items E soup (VDict (filter relevant d)) t.
Proof.
  rewrite !extract_items_dict, container_chain_relevant.
  destruct (negb (PyVal.truthy (container_chain d))); [reflexivity|].
  destruct (negb (PyVal.truthy (unwrap_selector (container_chain d))));
    [reflexivity|].
  unfold bind.
  destruct (select E soup (unwrap_selector (container_chain d)) t)
    as [[containers|e] t1]; [|reflexivity].
  apply for_each_ext. intros c acc u.
  unfold extract_container, bind, build_item.
  rewrite (fields_loop_filter E c relevant); [reflexivity|].
  intros fs Hu. unfold relevant. rewrite Hu. apply orb_true_r.
Qed.

(* ================================================================== *)
(** ** More on the classifier *)

(** X7.  After a fetch that succeeded and was not blocked, when at least
    one item was extracted and [target_count] is an integer, the result
    is a success that carries exactly the extracted items, in order;
    [needs_browser] is [count < target_count], and the reason is
    [below_target_<count>/<target_count>] in decimal then, [None]
    otherwise. *)
Theorem scrape_returns_extracted_items
        (E : Env) url selectors (target_count : Z) t text items t1 :
  session_get E t url = Ok text ->
  _is_bot_blocked text = false ->
  _extract_items E (html_parser E text) selectors
                 ((t ++ [EvGet url]) ++ [EvParse text])%list
  = (Ok items, t1) ->
  items <> [] ->
  scrape E url selectors (VInt target_count) t
  = (Ok (VDict
           [("success", VBool true); ("items", VList items);
            ("count", VInt (Z.of_nat (List.length items)));
            ("needs_browser",
             VBool (Z.of_nat (List.length items) <? target_count));
            ("reason",
             if Z.of_nat (List.length items) <? target_count
             then VStr ("below_target_"
                          ++ PyStr.of_Z (Z.of_nat (List.length items))
                          ++ "/" ++ PyStr.of_Z target_count)
             else VNone)]),
     t1).
Proof.
  intros Hget Hblocked Hextract Hne. run.
  rewrite Hget, Hblocked, Hextract.
  destruct (Z.of_nat (List.length items) =? 0) eqn:Hzero;
    [apply length_zero_nil in Hzero; contradiction|].
  unfold below_target, ret.
  now destruct (Z.of_nat (List.length items) <? target_count).
Qed.

Lemma scrape_returns_extracted_items_witness :
  fst (scrape Fixture.env (VStr Fixture.shop_url)
              (VDict Fixture.card_selectors) (VInt 5) [])
  = Ok (result true
          [VDict [("link", VStr " ")]; VDict [("link", VStr "/tea")]]
          2 true (VStr "below_target_2/5")).
Proof.
  rewrite (scrape_returns_extracted_items Fixture.env (VStr Fixture.shop_url)
             (VDict Fixture.card_selectors) 5 [] Fixture.shop_text
             [VDict [("link", VStr " ")]; VDict [("link", VStr "/tea")]]
             [EvGet (VStr Fixture.shop_url); EvParse Fixture.shop_text;
              EvSelect (VStr "div"); EvSelectOne (VStr "a");
              EvSelectOne (VStr "a")]);
    [reflexivity | vm_compute; reflexivity | vm_compute; reflexivity
     | vm_compute; reflexivity | discriminate].
Defined.

Lemma unwrap_truthy (c : value) :
  PyVal.truthy (unwrap_selector c) = true -> PyVal.truthy c = true.
Proof.
  destruct c as [| | | | |o]; cbn; try tauto.
  destruct o; [discriminate | reflexivity].
Qed.

(** X8.  When the container selector resolves and the document refuses
    it (the selector engine raises), the request is answered with a
    [parse_error] failure that carries the engine's message, not with
    [no_items_found]. *)
Theorem scrape_container_selector_refused
        (E : Env) url (d : dict) target_count t text e :
  session_get E t url = Ok text ->
  _is_bot_blocked text = false ->
  PyVal.truthy (unwrap_selector (container_chain d)) = true ->
  soup_select E (html_parser E text) (unwrap_selector (container_chain d))
  = Raise e ->
  isinstance e RequestException = false ->
  scrape E url (VDict d) target_count t
  = (Ok (VDict [("success", VBool false); ("items", VList []);
                ("count", VInt 0); ("needs_browser", VBool true);
                ("reason", VStr ("parse_error: " ++ exn_str e))]),
     (((t ++ [EvGet url]) ++ [EvParse text])
        ++ [EvSelect (unwrap_selector (container_chain d))])%list).
Proof.
  intros Hget Hblocked Hsel Hraise He. run.
  rewrite Hget, Hblocked, extract_items_dict.
  rewrite (unwrap_truthy _ Hsel), Hsel. cbn [negb].
  unfold bind, select. rewrite Hraise.
  unfold scrape_except, ret.
  assert (isinstance e Timeout = false) as ->.
  { destruct e as [[] msg]; cbn in *; congruence. }
  now rewrite He.
Qed.

Lemma scrape_container_selector_refused_witness :
  fst (scrape Fixture.env (VStr Fixture.shop_url)
              (VDict [("container", VInt 7)]) (VInt 10) [])
  = Ok (result false [] 0 true
          (VStr "parse_error: expected a selector string")).
Proof.
  rewrite (scrape_container_selector_refused Fixture.env
             (VStr Fixture.shop_url) [("container", VInt 7)] (VInt 10) []
             Fixture.shop_text (mkExn TypeError "expected a selector string"));
    [reflexivity | vm_compute; reflexivity | vm_compute; reflexivity
     | reflexivity | reflexivity | reflexivity].
Defined.

(** X9.  When [selectors] is not an object (a list, a string, a number,
    [null]), a fetch that succeeded and was not blocked is answered with
    a [parse_error] failure: the document is parsed but never queried. *)
Theorem scrape_selectors_not_an_object
        (E : Env) url selectors target_count t text :
  session_get E t url = Ok text ->
  _is_bot_blocked text = false ->
  (forall d, selectors <> VDict d) ->
  scrape E url selectors target_count t
  = (Ok (VDict [("success", VBool false); ("items", VList []);
                ("count", VInt 0); ("needs_browser", VBool true);
                ("reason",
                 VStr ("parse_error: '" ++ PyVal.type_name selectors
                         ++ "' object has no attribute 'get'"))]),
     ((t ++ [EvGet url]) ++ [EvParse text])%list).
Proof.
  intros Hget Hblocked Hnd. run. rewrite Hget, Hblocked.
  unfold _extract_items, method_get, bind, raise.
  destruct selectors as [| | | | |d]; try reflexivity.
  now destruct (Hnd d).
Qed.

Lemma scrape_selectors_not_an_object_witness :
  fst (scrape Fixture.env (VStr Fixture.shop_url) (VList []) (VInt 10) [])
  = Ok (result false [] 0 true
          (VStr "parse_error: 'list' object has no attribute 'get'")).
Proof.
  rewrite (scrape_selectors_not_an_object Fixture.env (VStr Fixture.shop_url)
             (VList []) (VInt 10) [] Fixture.shop_text);
    [reflexivity | vm_compute; reflexivity | vm_compute; reflexivity
     | discriminate].
Defined.

(** X10.  When [target_count] is [null], a string, a list or an object
    and items were extracted, the comparison raises: the request is
    answered with a [parse_error] failure and the extracted items are
    not returned.  With no item extracted the answer is
    [no_items_found], the comparison not being reached. *)
Theorem scrape_target_count_not_a_number
        (E : Env) url selectors target_count t text items t1 :
  session_get E t url = Ok text ->
  _is_bot_blocked text = false ->
  _extract_items E (html_parser E text) selectors
                 ((t ++ [EvGet url]) ++ [EvParse text])%list
  = (Ok items, t1) ->
  target_count = VNone
  \/ (exists s, target_count = VStr s)
  \/ (exists l, target_count = VList l)
  \/ (exists d, target_count = VDict d) ->
  scrape E url selectors target_count t
  = (Ok (VDict
           [("success", VBool false); ("items", VList []);
            ("count", VInt 0); ("needs_browser", VBool true);
            ("reason",
             match items with
             | [] => VStr "no_items_found"
             | _ :: _ =>
                 VStr ("parse_error: '<' not supported between instances "
                         ++ "of 'int' and '"
                         ++ PyVal.type_name target_count ++ "'")
             end)]),
     t1).
Proof.
  intros Hget Hblocked Hextract Hkind. run.
  rewrite Hget, Hblocked, Hextract.
  destruct items as [|x items]; [reflexivity|].
  cbn [List.length].
  destruct (Z.of_nat (S (List.length items)) =? 0) eqn:Hzero;
    [apply Z.eqb_eq in Hzero; lia|].
  unfold below_target, raise.
  destruct Hkind as [-> | [[s ->] | [[l ->] | [d ->]]]]; reflexivity.
Qed.

Lemma scrape_target_count_not_a_number_witness :
  fst (scrape Fixture.env (VStr Fixture.shop_url)
              (VDict Fixture.card_selectors) (VStr "5") [])
  = Ok (result false [] 0 true
          (VStr ("parse_error: '<' not supported between instances "
                   ++ "of 'int' and 'str'"))).
Proof.
  rewrite (scrape_target_count_not_a_number Fixture.env
             (VStr Fixture.shop_url) (VDict Fixture.card_selectors)
             (VStr "5") [] Fixture.shop_text
             [VDict [("link", VStr " ")]; VDict [("link", VStr "/tea")]]
             [EvGet (VStr Fixture.shop_url); EvParse Fixture.shop_text;
              EvSelect (VStr "div"); EvSelectOne (VStr "a");
              EvSelectOne (VStr "a")]);
    [reflexivity | vm_compute; reflexivity | vm_compute; reflexivity
     | vm_compute; reflexivity | right; left; now exists "5"].
Defined.

(* ================================================================== *)
(** ** More on the persistent loop *)

Lemma scrape_prints_nothing (E : Env) url selectors target_count t :
  printed (snd (scrape E url selectors target_count t)) = printed t.
Proof.
  apply (spec_scrape (fun t' => printed t' = printed t)); [|reflexivity].
  intros u e He Hu. rewrite printed_app, Hu.
  destruct e; try discriminate; apply app_nil_r.
Qed.

(** What one turn of the loop does: on the shutdown command nothing, and
    the loop ends; on any other line one value is printed, and the loop
    goes on. *)
Lemma serve_line_outcome (E : Env) (line : string) t :
  (is_shutdown E line = true /\ serve_line E line t = (Ok Break, t))
  \/ (is_shutdown E line = false
      /\ exists v t',
          serve_line E line t = (Ok Continue, t')
          /\ printed t' = (printed t ++ [v])%list).
Proof.
  unfold is_shutdown, serve_line, loads, method_get, print.
  repeat progress unfold try_except, bind, ret, raise, emit.
  destruct (json_loads E line) as [msg|request].
  - right. split; [reflexivity|]. cbn. eexists; eexists.
    split; [reflexivity|]. now rewrite printed_app.
  - destruct request as [| | | | |d];
      try (right; split; [reflexivity|]; cbn; eexists; eexists;
           split; [reflexivity|]; now rewrite printed_app).
    destruct (PyVal.eq_str (PyVal.get d "command" VNone) "shutdown").
    + left. split; reflexivity.
    + right. split; [reflexivity|].
      destruct (negb (PyVal.truthy (PyVal.get d "url" (VStr "")))).
      * eexists; eexists. split; [reflexivity|]. now rewrite printed_app.
      * pose proof (scrape_prints_nothing E (PyVal.get d "url" (VStr ""))
                      (PyVal.get d "selectors" (VDict []))
                      (PyVal.get d "targetCount" (VInt 10)) t) as Hquiet.
        destruct (scrape_returns E (PyVal.get d "url" (VStr ""))
                    (PyVal.get d "selectors" (VDict []))
                    (PyVal.get d "targetCount" (VInt 10)) t)
          as (r & t' & Hr & _).
        rewrite Hr in *. cbn [snd] in Hquiet.
        eexists; eexists. split; [reflexivity|].
        now rewrite printed_app, Hquiet.
Qed.

(** X11.  The shutdown command ends the loop: nothing is printed for it,
    nothing is fetched, and the lines after it are not processed,
    whatever else the request holds. *)
Theorem serve_shutdown (E : Env) (line : string) (rest : list string) t :
  PyStr.strip line <> "" ->
  is_shutdown E (PyStr.strip line) = true ->
  serve E (line :: rest) t = (Ok tt, t).
Proof.
  intros Hline Hshut. cbn [serve]. rewrite (nonblank_truthy _ Hline).
  unfold bind.
  destruct (serve_line_outcome E (PyStr.strip line) t)
    as [[_ ->] | [Hno _]]; [reflexivity | congruence].
Qed.

Lemma serve_shutdown_witness :
  serve Session.env [Session.line_shutdown; Fixture.line_shop] []
  = (Ok tt, []).
Proof.
  apply (serve_shutdown Session.env Session.line_shutdown
           [Fixture.line_shop] []);
    [vm_compute; discriminate | vm_compute; reflexivity].
Defined.

(** X12.  The loop prints exactly one value for each non-blank line that
    comes before the first shutdown command: none for a blank line, none
    for the shutdown command or after it.  (Reading standard input and
    writing standard output are taken to succeed.) *)
Theorem serve_one_response_per_request (E : Env) (stdin : list string) t :
  exists responses,
    printed (snd (serve E stdin t)) = (printed t ++ responses)%list
    /\ List.length responses = List.length (answered E stdin).
Proof.
  revert t. induction stdin as [|line rest IH]; intros t.
  - exists []. cbn. now rewrite app_nil_r.
  - cbn [serve answered].
    destruct (PyStr.strip line) as [|c l] eqn:Hstrip.
    + cbn. apply IH.
    + cbn [PyVal.truthy PyStr.is_empty negb]. unfold bind.
      destruct (serve_line_outcome E (String c l) t)
        as [[Hs ->] | (Hs & v & t1 & -> & Hp)]; rewrite Hs.
      * exists []. cbn. now rewrite app_nil_r.
      * destruct (IH t1) as (responses & Hprinted & Hlen).
        exists (v :: responses). split.
        -- now rewrite Hprinted, Hp, <- app_assoc.
        -- cbn. now rewrite Hlen.
Qed.

(** X13.  A line on which [json.loads] raises [JSONDecodeError] gets one
    failure printed, with the reason [json_decode_error: ] and the
    message of the exception, nothing is fetched, and the loop goes on
    with the next line. *)
Theorem serve_decode_error_continues
        (E : Env) (line msg : string) (rest : list string) t :
  PyStr.strip line <> "" ->
  json_loads E (PyStr.strip line) = inl msg ->
  serve E (line :: rest) t
  = serve E rest
          (t ++ [EvPrint
                   (VDict [("success", VBool false); ("items", VList []);
                           ("count", VInt 0); ("needs_browser", VBool true);
                           ("reason",
                            VStr ("json_decode_error: " ++ msg))])])%list.
Proof.
  intros Hline Hloads. cbn [serve]. rewrite (nonblank_truthy _ Hline).
  unfold serve_line, loads, print.
  repeat progress unfold try_except, bind, ret, raise, emit.
  now rewrite Hloads.
Qed.

Lemma serve_decode_error_continues_witness :
  printed (snd (serve Fixture.env ["{oops"; Fixture.line_empty_url] []))
  = [result false [] 0 true
       (VStr "json_decode_error: Expecting value: line 1 column 1 (char 0)");
     result false [] 0 true (VStr "missing_url")].
Proof.
  rewrite (serve_decode_error_continues Fixture.env "{oops"
             "Expecting value: line 1 column 1 (char 0)"
             [Fixture.line_empty_url] []);
    [reflexivity | vm_compute; discriminate | vm_compute; reflexivity].
Defined.

(** X14.  A line that decodes to something that is not an object (a
    list, a string, a number, [null]) gets one [worker_error] failure
    printed, nothing is fetched, and the loop goes on. *)
Theorem serve_request_not_an_object
        (E : Env) (line : string) (request : value) (rest : list string) t :
  PyStr.strip line <> "" ->
  json_loads E (PyStr.strip line) = inr request ->
  (forall d, request <> VDict d) ->
  serve E (line :: rest) t
  = serve E rest
          (t ++ [EvPrint
                   (VDict [("success", VBool false); ("items", VList []);
                           ("count", VInt 0); ("needs_browser", VBool true);
                           ("reason",
                            VStr ("worker_error: '"
                                    ++ PyVal.type_name request
                                    ++ "' object has no attribute 'get'"))])])%list.
Proof.
  intros Hline Hloads Hnd. cbn [serve]. rewrite (nonblank_truthy _ Hline).
  unfold serve_line, loads, method_get, print.
  repeat progress unfold try_except, bind, ret, raise, emit.
  rewrite Hloads.
  destruct request as [| | | | |d]; try reflexivity.
  now destruct (Hnd d).
Qed.

Lemma serve_request_not_an_object_witness :
  serve Fixture.env ["[]"] []
  = (Ok tt,
     [EvPrint (result false [] 0 true
                 (VStr "worker_error: 'list' object has no attribute 'get'"))]).
Proof.
  rewrite (serve_request_not_an_object Fixture.env "[]" (VList []) [] []);
    [reflexivity | vm_compute; discriminate | vm_compute; reflexivity
     | discriminate].
Defined.

(** X15.  Requests are served one after the other and independently:
    when no line of [xs] is the shutdown command, serving [xs ++ ys] is
    serving [xs] and then [ys] from the trace that left. *)
Theorem serve_app (E : Env) (xs ys : list string) t :
  (forall x, In x xs -> is_shutdown E (PyStr.strip x) = false) ->
  serve E (xs ++ ys) t = serve E ys (snd (serve E xs t)).
Proof.
  revert t. induction xs as [|x xs IH]; intros t Hxs; [reflexivity|].
  cbn [app serve].
  destruct (negb (PyVal.truthy (VStr (PyStr.strip x)))).
  - apply IH. intros; apply Hxs; now right.
  - unfold bind.
    destruct (serve_line_outcome E (PyStr.strip x) t)
      as [[Hs _] | (_ & v & t1 & -> & _)].
    + rewrite Hxs in Hs by now left. discriminate.
    + apply IH. intros; apply Hxs; now right.
Qed.

Lemma serve_app_witness :
  serve Fixture.env ([Fixture.line_empty_url] ++ [Fixture.line_no_url]) []
  = serve Fixture.env [Fixture.line_no_url]
          (snd (serve Fixture.env [Fixture.line_empty_url] [])).
Proof.
  apply (serve_app Fixture.env [Fixture.line_empty_url]
           [Fixture.line_no_url] []).
  intros x [<- | []]. vm_compute. reflexivity.
Defined.

(** X16.  Blank lines (empty, or white space only) are skipped without a
    response: the loop does the same with them removed. *)
Theorem serve_skips_blank_lines (E : Env) (stdin : list string) t :
  serve E stdin t
  = serve E (filter (fun line => negb (PyStr.is_empty (PyStr.strip line)))
                    stdin) t.
Proof.
  revert t. induction stdin as [|line rest IH]; intros t; [reflexivity|].
  cbn [filter].
  destruct (PyStr.strip line) as [|c l] eqn:Hstrip; cbn [PyStr.is_empty negb].
  - cbn [serve]. rewrite Hstrip. cbn. apply IH.
  - cbn [serve]. rewrite Hstrip. cbn [PyVal.truthy PyStr.is_empty negb].
    unfold bind. destruct (serve_line E (String c l) t) as [[[|]|e] t1];
      [apply IH | reflexivity | reflexivity].
Qed.

(** X17.  In the persistent loop a request with a url and no [selectors]
    is not refused: the url is fetched with the empty configuration, and
    when the fetch succeeds and is not blocked the answer is
    [no_items_found]. *)
Theorem serve_missing_selectors_fetches
        (E : Env) (line : string) (d : dict) (rest : list string) t text :
  PyStr.strip line <> "" ->
  json_loads E (PyStr.strip line) = inr (VDict d) ->
  PyVal.eq_str (PyVal.get d "command" VNone) "shutdown" = false ->
  PyVal.truthy (PyVal.get d "url" (VStr "")) = true ->
  PyVal.lookup d "selectors" = None ->
  session_get E t (PyVal.get d "url" (VStr "")) = Ok text ->
  _is_bot_blocked text = false ->
  serve E (line :: rest) t
  = serve E rest
          (((t ++ [EvGet (PyVal.get d "url" (VStr ""))]) ++ [EvParse text])
             ++ [EvPrint
                   (VDict [("success", VBool false); ("items", VList []);
                           ("count", VInt 0); ("needs_browser", VBool true);
                           ("reason", VStr "no_items_found")])])%list.
Proof.
  intros Hline Hloads Hcmd Hurl Hsel Hget Hblocked.
  cbn [serve]. rewrite (nonblank_truthy _ Hline).
  unfold serve_line, loads, method_get, print.
  repeat progress unfold try_except, bind, ret, raise, emit.
  rewrite Hloads, Hcmd, Hurl. cbn [negb].
  unfold PyVal.get at 2. rewrite Hsel.
  change (match scrape_body E (PyVal.get d "url" (VStr "")) (VDict [])
                  (PyVal.get d "targetCount" (VInt 10)) t with
          | (Ok a, t') => (Ok a, t')
          | (Raise e, t') => scrape_except e t'
          end)
    with (scrape E (PyVal.get d "url" (VStr "")) (VDict [])
                 (PyVal.get d "targetCount" (VInt 10)) t).
  assert (scrape E (PyVal.get d "url" (VStr "")) (VDict [])
                 (PyVal.get d "targetCount" (VInt 10)) t
          = (Ok (result false [] 0 true (VStr "no_items_found")),
             ((t ++ [EvGet (PyVal.get d "url" (VStr ""))])
                ++ [EvParse text])%list)) as ->; [|reflexivity].
  run. rewrite Hget, Hblocked. reflexivity.
Qed.

Lemma serve_missing_selectors_fetches_witness :
  serve Session.env [Session.line_url_only] []
  = (Ok tt,
     [EvGet (VStr Fixture.shop_url); EvParse Fixture.shop_text;
      EvPrint (result false [] 0 true (VStr "no_items_found"))]).
Proof.
  rewrite (serve_missing_selectors_fetches Session.env Session.line_url_only
             [("url", VStr Fixture.shop_url)] [] [] Fixture.shop_text);
    [reflexivity | vm_compute; discriminate | vm_compute; reflexivity
     | reflexivity | reflexivity | reflexivity | vm_compute; reflexivity
     | vm_compute; reflexivity].
Defined.

(* ================================================================== *)
(** ** More on single-shot mode *)

(** X18.  Called without an argument, [main] prints the usage object and
    exits with status 1; that object, with its single key [error], is
    not a result object. *)
Theorem main_without_argument (E : Env) (argv stdin : list string) t :
  (List.length argv < 2)%nat ->
  main E argv stdin t
  = (Ok 1,
     (t ++ [EvPrint
              (VDict [("error",
                       VStr ("Usage: http_scraper.py <json_input> OR "
                               ++ "http_scraper.py --serve"))])])%list)
  /\ ~ well_formed usage.
Proof.
  intros Hlen. split.
  - destruct argv as [|prog [|arg argv]]; [reflexivity | reflexivity|].
    cbn in Hlen. lia.
  - intros (d & items & Hd & Hkeys & _). injection Hd as <-. discriminate.
Qed.

Lemma main_without_argument_witness :
  main Fixture.env ["http_scraper.py"] [] [] = (Ok 1, [EvPrint usage]).
Proof.
  apply (main_without_argument Fixture.env ["http_scraper.py"] [] []).
  cbn. lia.
Defined.

Lemma serve_returns (E : Env) (stdin : list string) t :
  exists t', serve E stdin t = (Ok tt, t').
Proof.
  revert t. induction stdin as [|line rest IH]; intros t; cbn [serve].
  - now exists t.
  - destruct (negb (PyVal.truthy (VStr (PyStr.strip line)))); [apply IH|].
    unfold bind.
    destruct (serve_line_outcome E (PyStr.strip line) t)
      as [[_ ->] | (_ & v & t1 & -> & _)]; [now exists t | apply IH].
Qed.

(** X19.  With [--serve] as first argument, [main] runs the persistent
    loop on standard input and exits with status 0 when the loop ends;
    further arguments are ignored. *)
Theorem main_serve_mode
        (E : Env) (prog : string) (rest stdin : list string) t :
  main E (prog :: "--serve" :: rest) stdin t
  = (Ok 0, snd (serve E stdin t)).
Proof.
  cbn [main]. rewrite String.eqb_refl. unfold bind, ret.
  destruct (serve_returns E stdin t) as (t' & ->). reflexivity.
Qed.

(** X20.  In single-shot mode an object without [url] is refused with
    [missing_key: 'url'], and one with [url] but without [selectors]
    with [missing_key: 'selectors']; the status is 1 and nothing is
    fetched.  [url] is looked up first, so it is the one named when both
    are missing. *)
Theorem main_missing_key
        (E : Env) (prog arg : string) (rest stdin : list string) (d : dict) t :
  arg <> "--serve" ->
  json_loads E arg = inr (VDict d) ->
  (PyVal.lookup d "url" = None ->
   main E (prog :: arg :: rest) stdin t
   = (Ok 1,
      (t ++ [EvPrint
               (VDict [("success", VBool false); ("items", VList []);
                       ("count", VInt 0); ("needs_browser", VBool true);
                       ("reason", VStr "missing_key: 'url'")])])%list))
  /\ (PyVal.lookup d "url" <> None ->
      PyVal.lookup d "selectors" = None ->
      main E (prog :: arg :: rest) stdin t
      = (Ok 1,
         (t ++ [EvPrint
                  (VDict [("success", VBool false); ("items", VList []);
                          ("count", VInt 0); ("needs_browser", VBool true);
                          ("reason", VStr "missing_key: 'selectors'")])])%list)).
Proof.
  intros Harg Hloads. apply String.eqb_neq in Harg.
  unfold main. rewrite Harg. unfold subscript, method_get, loads, print.
  repeat progress unfold try_except, bind, ret, raise, emit.
  rewrite Hloads. split.
  - intros ->. reflexivity.
  - intros Hurl Hsel.
    destruct (PyVal.lookup d "url"); [|congruence].
    rewrite Hsel. reflexivity.
Qed.

Lemma main_missing_key_witness :
  main Fixture.env ["http_scraper.py"; Fixture.line_empty_url] [] []
  = (Ok 1, [EvPrint (result false [] 0 true
                       (VStr "missing_key: 'selectors'"))])
  /\ main Fixture.env ["http_scraper.py"; Fixture.line_no_url] [] []
     = (Ok 1, [EvPrint (result false [] 0 true (VStr "missing_key: 'url'"))]).
Proof.
  split.
  - apply (main_missing_key Fixture.env "http_scraper.py"
             Fixture.line_empty_url [] [] [("url", VStr "")] []);
      [vm_compute; discriminate | vm_compute; reflexivity
       | discriminate | reflexivity].
  - apply (main_missing_key Fixture.env "http_scraper.py"
             Fixture.line_no_url [] [] [("selectors", VDict [])] []);
      [vm_compute; discriminate | vm_compute; reflexivity | reflexivity].
Defined.

(** X21.  In single-shot mode an argument on which [json.loads] raises
    [JSONDecodeError] is answered with [json_decode_error: ] and the
    message of the exception, and
    one that decodes to something that is not an object with
    [fatal_error: ] and the message of the failed subscript; the status
    is 1 and nothing is fetched or printed besides. *)
Theorem main_undecodable_or_not_an_object
        (E : Env) (prog arg : string) (rest stdin : list string) t :
  arg <> "--serve" ->
  (forall msg,
      json_loads E arg = inl msg ->
      main E (prog :: arg :: rest) stdin t
      = (Ok 1,
         (t ++ [EvPrint
                  (VDict [("success", VBool false); ("items", VList []);
                          ("count", VInt 0); ("needs_browser", VBool true);
                          ("reason",
                           VStr ("json_decode_error: " ++ msg))])])%list))
  /\ (forall v,
         json_loads E arg = inr v ->
         (forall d, v <> VDict d) ->
         exists detail,
           main E (prog :: arg :: rest) stdin t
           = (Ok 1,
              (t ++ [EvPrint
                       (VDict [("success", VBool false); ("items", VList []);
                               ("count", VInt 0);
                               ("needs_browser", VBool true);
                               ("reason",
                                VStr ("fatal_error: " ++ detail))])])%list)
           /\ detail <> "").
Proof.
  intros Harg. apply String.eqb_neq in Harg.
  unfold main. rewrite Harg. unfold subscript, method_get, loads, print.
  repeat progress unfold try_except, bind, ret, raise, emit.
  split.
  - intros msg ->. reflexivity.
  - intros v -> Hnd.
    destruct v as [| | | | |d];
      try (eexists; split; [reflexivity | discriminate]).
    now destruct (Hnd d).
Qed.

Lemma main_undecodable_or_not_an_object_witness :
  exists detail,
    main Fixture.env ["http_scraper.py"; "[]"] [] []
    = (Ok 1, [EvPrint (result false [] 0 true
                         (VStr ("fatal_error: " ++ detail)))]).
Proof.
  destruct (main_undecodable_or_not_an_object Fixture.env "http_scraper.py"
              "[]" [] [] []) as [_ Hobj]; [discriminate|].
  destruct (Hobj (VList [])) as (detail & Hmain & _);
    [reflexivity | discriminate |].
  now exists detail.
Defined.
